(** * apigateway: request extraction, error conversion and token checks

    A shallow embedding of the adapters under
    [src/apigateway/core/adapters/], of [auth.py] and of [auth_utils.py],
    with the properties their specification states about them.

    Python values are an inductive type, a [dict] is an association list
    in insertion order, an exception is a constructor of [exn] and a
    computation that may raise has type [result]. *)

From Stdlib Require Import String Ascii ZArith List Bool Lia.
Import ListNotations.

Open Scope string_scope.
Open Scope list_scope.

Set Implicit Arguments.
Set Warnings "-register-all".

(* ===================================================================== *)
(** ** Python values *)
(* ===================================================================== *)

(** What [json.loads] and [request.get_json()] hand back: [None], [bool],
    [int], [str], [list] and [dict] with [str] keys.  An object keeps its
    members in text order; a repeated name takes its last value, as the
    parser does.  A number with a fraction or an exponent would be a
    Python [float]; floats are left out. *)
Inductive json : Type :=
| JNull
| JBool (b : bool)
| JInt (n : Z)
| JStr (s : string)
| JArr (items : list json)
| JObj (members : list (string * json)).

(** [bytes] and [str] are both sequences of 8-bit characters here. *)
Definition bytes := string.

(** [bool(x)]: the truth value Python gives to [x] in an [if]. *)
Definition truthy (x : json) : bool :=
  match x with
  | JNull => false
  | JBool b => b
  | JInt n => negb (n =? 0)%Z
  | JStr s => negb (s =? "")
  | JArr items => match items with [] => false | _ => true end
  | JObj members => match members with [] => false | _ => true end
  end.

(** [x == r] for a [str] [r]: only an equal [str] compares equal. *)
Definition eq_str (x : json) (r : string) : bool :=
  match x with
  | JStr s => s =? r
  | _ => false
  end.

(** [x in roles] for a list of [str]. *)
Definition py_in (x : json) (roles : list string) : bool :=
  existsb (eq_str x) roles.

(** Only immutable values hash, so only they can be keys of a [dict]. *)
Definition hashable (x : json) : bool :=
  match x with
  | JArr _ | JObj _ => false
  | _ => true
  end.

(** Equality of two hashable keys: [True == 1] and [False == 0]. *)
Definition key_eqb (a b : json) : bool :=
  match a, b with
  | JNull, JNull => true
  | JStr s, JStr t => s =? t
  | JBool x, JBool y => Bool.eqb x y
  | JInt n, JInt m => (n =? m)%Z
  | JBool x, JInt m => ((if x then 1 else 0) =? m)%Z
  | JInt n, JBool y => (n =? (if y then 1 else 0))%Z
  | _, _ => false
  end.

(* ===================================================================== *)
(** ** Exceptions and results *)
(* ===================================================================== *)

(** [class AuthError(Exception)], [auth.py] lines 8-13 and
    [auth_utils.py] lines 23-28: [status_code] defaults to 401. *)
Record AuthError : Type := mkAuthError
  { message : string;
    status_code : Z }.

Definition AuthError_default (msg : string) : AuthError :=
  mkAuthError msg 401.

(** Modelled from the spec: [apigateway/exceptions/GatewayValidationError.py]
    is not part of the sources at hand.  The adapters build it as
    [GatewayValidationError(message, details)] and read [.message] and
    [.details]; the specification says it carries a human-readable message
    and a sequence of details. *)
Record GatewayValidationError : Type := mkGatewayValidationError
  { gve_message : string;
    details : list json }.

Inductive exn : Type :=
| ExAuth (e : AuthError)
| ExValidation (e : GatewayValidationError)
| ExPy (name : string).

Inductive result (A : Type) : Type :=
| Ok (a : A)
| Raise (e : exn).

Arguments Ok {A} a.
Arguments Raise {A} e.

Definition bind {A B : Type} (m : result A) (k : A -> result B) : result B :=
  match m with
  | Ok a => k a
  | Raise e => Raise e
  end.

Notation "x <- m ;; k" := (bind m (fun x => k))
  (at level 61, m at next level, right associativity).

(** [try: body / except Exception: handler]. *)
Definition try_except {A : Type} (body : result A) (handler : exn -> result A)
  : result A :=
  match body with
  | Ok a => Ok a
  | Raise e => handler e
  end.

(** A library call that either yields a value or raises the named
    exception. *)
Definition or_raise {A : Type} (name : string) (o : option A) : result A :=
  match o with
  | Some a => Ok a
  | None => Raise (ExPy name)
  end.

(* ===================================================================== *)
(** ** Strings *)
(* ===================================================================== *)

(** [s.split(sep)] for a separator of one character. *)
Fixpoint split (sep : ascii) (s : string) : list string :=
  match s with
  | EmptyString => [EmptyString]
  | String c rest =>
      if Ascii.eqb c sep then EmptyString :: split sep rest
      else match split sep rest with
           | [] => [String c EmptyString]
           | seg :: segs => String c seg :: segs
           end
  end.

(** [s.startswith(p)]. *)
Definition startswith (s p : string) : bool := String.prefix p s.

(** [p in s] for two strings. *)
Definition contains (p s : string) : bool :=
  match String.index 0 p s with
  | Some _ => true
  | None => false
  end.

(** [c * n]. *)
Fixpoint repeat_char (c : ascii) (n : nat) : string :=
  match n with
  | O => EmptyString
  | S n' => String c (repeat_char c n')
  end.

(** [c in s] for a character [c]. *)
Fixpoint has_char (c : ascii) (s : string) : bool :=
  match s with
  | EmptyString => false
  | String c' rest => Ascii.eqb c' c || has_char c rest
  end.

(** [xs[i]]: [IndexError] out of range. *)
Definition index_list {A : Type} (xs : list A) (i : nat) : result A :=
  or_raise "IndexError" (nth_error xs i).

(* ===================================================================== *)
(** ** Dictionaries *)
(* ===================================================================== *)

Module Dict.
Section WithKey.

Variables K V : Type.
Variable eqb : K -> K -> bool.

Definition t : Type := list (K * V).

(** [d[k] = v]: an existing key keeps its place and its key object, a new
    one goes last. *)
Fixpoint setitem (d : t) (k : K) (v : V) : t :=
  match d with
  | [] => [(k, v)]
  | (k', v') :: d' =>
      if eqb k' k then (k', v) :: d' else (k', v') :: setitem d' k v
  end.

(** [d.get(k)]. *)
Fixpoint get (d : t) (k : K) : option V :=
  match d with
  | [] => None
  | (k', v') :: d' => if eqb k' k then Some v' else get d' k
  end.

End WithKey.
End Dict.

(** A [dict] of Python values. *)
Definition dict : Type := Dict.t json json.

Definition setitem (d : dict) (k v : json) : dict := Dict.setitem key_eqb d k v.
Definition getitem (d : dict) (k : json) : option json := Dict.get key_eqb d k.

(** The argument of [dict.update] read as a sequence: a list gives its
    items, a [str] its characters, a [dict] its keys; anything else does
    not iterate. *)
Definition as_sequence (x : json) : option (list json) :=
  match x with
  | JArr items => Some items
  | JStr s => Some (map (fun c => JStr (String c EmptyString)) (list_ascii_of_string s))
  | JObj members =>
      Some (map fst (fold_left (fun d kv => setitem d (JStr (fst kv)) (snd kv))
                               members ([] : dict)))
  | _ => None
  end.

(** [d.update(pairs)] for an iterable of pairs: each element must itself
    be a sequence of length two whose first item hashes. *)
Fixpoint update_pairs (d : dict) (pairs : list json) : result dict :=
  match pairs with
  | [] => Ok d
  | p :: rest =>
      match as_sequence p with
      | None => Raise (ExPy "TypeError")
      | Some [k; v] =>
          if hashable k then update_pairs (setitem d k v) rest
          else Raise (ExPy "TypeError")
      | Some _ => Raise (ExPy "ValueError")
      end
  end.

(** [d.update(other)] for a mapping: it overwrites key by key, in the
    order of the members. *)
Definition update_members (d : dict) (members : list (string * json)) : dict :=
  fold_left (fun d kv => setitem d (JStr (fst kv)) (snd kv)) members d.

(** [d.update(other)]: any argument that is not a mapping is taken as an
    iterable of pairs. *)
Definition update (d : dict) (other : json) : result dict :=
  match other with
  | JObj members => Ok (update_members d members)
  | _ =>
      match as_sequence other with
      | Some pairs => update_pairs d pairs
      | None => Raise (ExPy "TypeError")
      end
  end.

(** The value a parsed object gives to a name: the last member of that
    name. *)
Definition member (name : string) (members : list (string * json)) : option json :=
  getitem (update_members [] members) (JStr name).

(** [payload.get(name)]: [None] for a missing key, [AttributeError] when
    the value is not a [dict] at all. *)
Definition json_get (payload : json) (name : string) : result json :=
  match payload with
  | JObj members =>
      Ok (match member name members with Some v => v | None => JNull end)
  | _ => Raise (ExPy "AttributeError")
  end.

(* ===================================================================== *)
(** ** Requests and responses of the frameworks *)
(* ===================================================================== *)

(** werkzeug's [MultiDict] and Django's [QueryDict]: every key with the
    list of its values. *)
Definition MultiDict : Type := list (string * list string).

(** [md.getlist(key)]. *)
Fixpoint getlist (md : MultiDict) (key : string) : list string :=
  match md with
  | [] => []
  | (k, values) :: md' => if k =? key then values else getlist md' key
  end.

(** [key in md]. *)
Definition has_key (md : MultiDict) (key : string) : bool :=
  existsb (String.eqb key) (map fst md).

(** [values[0] if len(values) == 1 else values]. *)
Definition flatten (values : list string) : json :=
  match values with
  | [v] => JStr v
  | _ => JArr (map JStr values)
  end.

(** What a source holds under a name: nothing, or its values flattened. *)
Definition source_value (source : option MultiDict) (key : string) : option json :=
  match source with
  | Some md => if has_key md key then Some (flatten (getlist md key)) else None
  | None => None
  end.

(** The first of two optional values that is there. *)
Definition or_else {A : Type} (a b : option A) : option A :=
  match a with
  | Some _ => a
  | None => b
  end.

(** A JSON response: what [jsonify(...)] with [status_code] set, or
    [JsonResponse(..., status=...)], carries. *)
Record Response : Type := mkResponse
  { response_json : json;
    response_status : Z }.

(* ===================================================================== *)
(** ** [adapters/flask.py] *)
(* ===================================================================== *)

Module FlaskAdapter.

(** Flask's request proxy, as far as the adapter reads it.  [get_json] is
    the outcome of [request.get_json()]: the parsed body, or the error
    werkzeug raises for a body that does not parse. *)
Record request : Type := mkRequest
  { args : MultiDict;
    form : MultiDict;
    is_json : bool;
    get_json : result json;
    headers_get : string -> option string }.

(** One of the two loops of lines 19-28:
    [for key in source: data[key] = flatten(source.getlist(key))]. *)
Definition merge_source (source : MultiDict) (data : dict) : dict :=
  fold_left
    (fun d key => setitem d (JStr key) (flatten (getlist source key)))
    (map fst source) data.

(** [extract_request_data], lines 11-40. *)
Definition extract_request_data (req : request) : result dict :=
  let data : dict := [] in
  (* 1. Query parameters (lowest priority) *)
  let data := match args req with [] => data | _ => merge_source (args req) data end in
  (* 2. Form data (overwrites query params with same name) *)
  let data := match form req with [] => data | _ => merge_source (form req) data end in
  (* 3. JSON body (highest priority) *)
  if is_json req then
    try_except
      (json_data <- get_json req ;;
       if truthy json_data then update data json_data else Ok data)
      (fun _ =>
         Raise (ExValidation
                  (mkGatewayValidationError "Invalid JSON format in request body" [])))
  else Ok data.

(** [handle_validation_error], lines 42-49. *)
Definition handle_validation_error (error : GatewayValidationError) : Response :=
  {| response_json :=
       JObj [("message", JStr (gve_message error));
             ("details", JArr (details error))];
     response_status := 422 |}.

(** [get_auth_header], lines 51-53. *)
Definition get_auth_header (req : request) : option string :=
  headers_get req "Authorization".

(** [handle_auth_error], lines 55-59. *)
Definition handle_auth_error (error : AuthError) : Response :=
  {| response_json := JObj [("detail", JStr (message error))];
     response_status := status_code error |}.

End FlaskAdapter.

(* ===================================================================== *)
(** ** [adapters/django.py] *)
(* ===================================================================== *)

Module DjangoAdapter.

(** The request object, as far as the adapter reads it.  The adapter asks
    [hasattr] before each attribute: [None] is an object without it. *)
Record request : Type := mkRequest
  { content_type : option string;
    body : bytes;
    POST : option MultiDict;
    GET : option MultiDict }.

(** [try: body / except (names...): handler]: other exceptions pass. *)
Definition try_except_only {A : Type} (names : list string)
  (body : result A) (handler : result A) : result A :=
  match body with
  | Raise (ExPy name) => if existsb (String.eqb name) names then handler else body
  | _ => body
  end.

(** One of the two loops of lines 25-37 over [source.lists()]. *)
Definition merge_lists (source : MultiDict) (data : dict) : dict :=
  fold_left (fun d kv => setitem d (JStr (fst kv)) (flatten (snd kv))) source data.

Definition merge_attr (source : option MultiDict) (data : dict) : dict :=
  match source with
  | None | Some [] => data
  | Some md => merge_lists md data
  end.

Section Extract.

(** [bytes.decode('utf-8')] and [json.loads] on a [str]: [None] stands for
    [UnicodeDecodeError] and [json.JSONDecodeError]. *)
Variable decode_utf8 : bytes -> option string.
Variable json_loads : string -> option json.

(** [extract_request_data], lines 11-39. *)
Definition extract_request_data (req : request) : result dict :=
  let data : dict := [] in
  (* JSON body *)
  data <-
    match content_type req with
    | Some ct =>
        if contains "application/json" ct then
          try_except_only ["JSONDecodeError"; "UnicodeDecodeError"]
            (text <- or_raise "UnicodeDecodeError" (decode_utf8 (body req)) ;;
             json_data <- or_raise "JSONDecodeError" (json_loads text) ;;
             if truthy json_data then update data json_data else Ok data)
            (Raise (ExValidation
                      (mkGatewayValidationError "Invalid JSON in request body" [])))
        else Ok data
    | None => Ok data
    end ;;
  (* Form data (POST) *)
  let data := merge_attr (POST req) data in
  (* Query parameters (GET) *)
  let data := merge_attr (GET req) data in
  Ok data.

End Extract.

(** [handle_validation_error], lines 41-46. *)
Definition handle_validation_error (error : GatewayValidationError) : Response :=
  {| response_json :=
       JObj [("error", JStr (gve_message error));
             ("details", JArr (details error))];
     response_status := 400 |}.

End DjangoAdapter.

(* ===================================================================== *)
(** ** [adapters/generic.py] and [adapters/fastapi.py] *)
(* ===================================================================== *)

Module GenericAdapter.

(** [handle_validation_error], lines 32-34: [raise error]. *)
Definition handle_validation_error (error : GatewayValidationError) : result Response :=
  Raise (ExValidation error).

(** An object that is neither [None] nor a [dict], as far as the adapter
    looks at it: the result of [model_dump()], of [dict()] and the
    content of [__dict__], each where [hasattr] finds the attribute.  A
    number, a string or a list has none of the three. *)
Record instance : Type := mkInstance
  { model_dump : option dict;
    dict_v1 : option dict;
    dunder_dict : option dict }.

(** The first positional argument of a wrapped call. *)
Inductive request_data : Type :=
| RNone
| RDict (d : dict)
| RObject (o : instance).

(** [extract_request_data], lines 8-30.  Keyword arguments are accepted
    and not read. *)
Definition extract_request_data (args : list request_data)
  (kw : list (string * request_data)) : result dict :=
  match args with
  | [] => Ok []
  | request_data :: _ =>
      match request_data with
      | RNone => Ok []
      | RDict d => Ok d
      | RObject o =>
          match model_dump o with
          | Some d => Ok d
          | None =>
              match dict_v1 o with
              | Some d => Ok d
              | None =>
                  match dunder_dict o with
                  | Some d => Ok d
                  | None =>
                      Raise (ExValidation
                               (mkGatewayValidationError
                                  "Unsupported request data type" []))
                  end
              end
          end
      end
  end.

End GenericAdapter.

Module FastAPIAdapter.

(** A Pydantic model instance, as far as [_model_to_dict] looks at it:
    the result of [model_dump()] when the attribute exists (Pydantic v2)
    and of [dict()] when that one does (Pydantic v1). *)
Record BaseModel : Type := mkBaseModel
  { model_dump : option dict;
    dict_v1 : option dict }.

(** An argument of the wrapped call: a Pydantic model or any other value. *)
Inductive pyobj : Type :=
| PyModel (m : BaseModel)
| PyOther (j : json).

(** [isinstance(value, BaseModel)]. *)
Definition isinstance_BaseModel (value : pyobj) : bool :=
  match value with
  | PyModel _ => true
  | PyOther _ => false
  end.

(** None of the values is a model. *)
Definition no_model (values : list pyobj) : Prop :=
  Forall (fun v => isinstance_BaseModel v = false) values.

(** What the method returns: the tuple [(data, value)] or a bare [dict]. *)
Inductive extracted : Type :=
| Tuple (data : dict) (value : BaseModel)
| Bare (data : dict).

(** [_model_to_dict], lines 36-43. *)
Definition _model_to_dict (model : BaseModel) : dict :=
  match model_dump model with
  | Some d => d
  | None =>
      match dict_v1 model with
      | Some d => d
      | None => []
      end
  end.

(** The two loops of lines 20-30: the first value that is a model. *)
Fixpoint first_model (values : list pyobj) : option BaseModel :=
  match values with
  | [] => None
  | PyModel m :: _ => Some m
  | PyOther _ :: rest => first_model rest
  end.

(** [extract_request_data], lines 14-34.  [kwargs] is in call order. *)
Definition extract_request_data (args : list pyobj) (kwargs : list (string * pyobj))
  : extracted :=
  match first_model (map snd kwargs) with
  | Some value => Tuple (_model_to_dict value) value
  | None =>
      match first_model args with
      | Some arg => Tuple (_model_to_dict arg) arg
      | None => Bare []
      end
  end.

End FastAPIAdapter.

(* ===================================================================== *)
(** ** [adapters/base_adapter.py] and [auth.py] *)
(* ===================================================================== *)

(** A keyword argument of a wrapped call: what the framework passed, or
    the decoded payload a decorator stored under ['user_payload']. *)
Inductive kwarg (Arg : Type) : Type :=
| Given (a : Arg)
| Payload (payload : json).

Arguments Payload {Arg} payload.

(** [**kwargs]: a [dict] with [str] keys. *)
Definition kwargs (Arg : Type) : Type := Dict.t string (kwarg Arg).

(** The two methods of [FrameworkAdapter] that [auth.py] calls.  Of the
    four adapters only [FlaskAdapter] defines them. *)
Class FrameworkAdapter (Arg Resp : Type) : Type :=
  { get_auth_header : list Arg -> kwargs Arg -> option string;
    handle_auth_error : AuthError -> Resp }.

Module Auth.

(** What a wrapped call did, in order: it called [func], it called
    [adapter.handle_auth_error]. *)
Inductive event (Arg : Type) : Type :=
| Called_func (args : list Arg) (kw : kwargs Arg)
| Called_handle_auth_error (e : AuthError).

Arguments Called_handle_auth_error {Arg} e.

(** A computation that may raise, with the calls it made. *)
Definition traced (Arg A : Type) : Type := (list (event Arg) * result A)%type.

Definition lift {Arg A : Type} (r : result A) : traced Arg A := ([], r).

Definition tbind {Arg A B : Type} (m : traced Arg A) (k : A -> traced Arg B)
  : traced Arg B :=
  match m with
  | (log, Ok a) => let (log', r) := k a in (log ++ log', r)
  | (log, Raise e) => (log, Raise e)
  end.

Notation "x <~ m ;; k" := (tbind m (fun x => k))
  (at level 61, m at next level, right associativity).

(** [try: body / except AuthError as e: handler(e)]. *)
Definition try_except_AuthError {Arg A : Type} (body : traced Arg A)
  (handler : AuthError -> traced Arg A) : traced Arg A :=
  match body with
  | (log, Raise (ExAuth e)) => let (log', r) := handler e in (log ++ log', r)
  | _ => body
  end.

(** [not auth_header or not auth_header.startswith("Bearer ")]. *)
Definition missing_or_invalid (auth_header : option string) : bool :=
  match auth_header with
  | None => true
  | Some h => (h =? "") || negb (startswith h "Bearer ")
  end.

(** [payload_b64 += '=' * (-len(payload_b64) % 4)], line 19. *)
Definition pad (payload_b64 : string) : string :=
  (payload_b64 ++
   repeat_char "=" (Z.to_nat ((- Z.of_nat (String.length payload_b64)) mod 4)))%string.

Section Decorators.

(** [base64.urlsafe_b64decode] and [json.loads] on [bytes]: [None] stands
    for the exception each raises on input it does not accept. *)
Variable urlsafe_b64decode : string -> option bytes.
Variable json_loads : bytes -> option json.

(** [simple_decode], lines 15-23. *)
Definition simple_decode (token : string) : result json :=
  try_except
    (payload_b64 <- index_list (split "." token) 1 ;;
     let payload_b64 := pad payload_b64 in
     decoded_payload <- or_raise "binascii.Error" (urlsafe_b64decode payload_b64) ;;
     or_raise "JSONDecodeError" (json_loads decoded_payload))
    (fun _ => Raise (ExAuth (mkAuthError "Invalid token format" 401))).

(** The three ways a token is structurally invalid: fewer than two
    segments between dots, a second segment that does not decode as
    base64 once padded, decoded bytes that do not parse as JSON. *)
Definition structurally_invalid (token : string) : Prop :=
  List.length (split "." token) < 2
  \/ (exists segment,
        nth_error (split "." token) 1 = Some segment /\
        urlsafe_b64decode (pad segment) = None)
  \/ (exists segment raw,
        nth_error (split "." token) 1 = Some segment /\
        urlsafe_b64decode (pad segment) = Some raw /\
        json_loads raw = None).

Variables Arg Resp : Type.
Context {adapter : FrameworkAdapter Arg Resp}.

(** The wrapped function: it returns a response or raises. *)
Variable func : list Arg -> kwargs Arg -> result Resp.

Definition call_func (args : list Arg) (kw : kwargs Arg) : traced Arg Resp :=
  ([Called_func args kw], func args kw).

Definition call_handle_auth_error (e : AuthError) : traced Arg Resp :=
  ([Called_handle_auth_error e], Ok (handle_auth_error e)).

(** Lines 38-40 and 68-70: the call of [func], still under the [try]. *)
Definition guarded_call (args : list Arg) (kw : kwargs Arg) : traced Arg Resp :=
  try_except_AuthError (call_func args kw) call_handle_auth_error.

(** [kwargs['user_payload'] = payload], lines 37 and 67. *)
Definition with_user_payload (kw : kwargs Arg) (payload : json) : kwargs Arg :=
  Dict.setitem String.eqb kw "user_payload" (Payload payload).

(** The first outcome of a wrapped call: the token of the header decoded
    and the one thing the call did was to invoke [func] with the payload
    bound to ['user_payload']; the call returns what [func] returned. *)
Definition handler_outcome (args : list Arg) (kw : kwargs Arg)
  (run : traced Arg Resp) : Prop :=
  exists h token payload,
    get_auth_header args kw = Some h /\
    nth_error (split " " h) 1 = Some token /\
    simple_decode token = Ok payload /\
    run = ([Called_func args (with_user_payload kw payload)],
           func args (with_user_payload kw payload)).

(** The second outcome: the one thing the call did was to invoke
    [adapter.handle_auth_error], whose result it returns. *)
Definition auth_error_outcome (run : traced Arg Resp) : Prop :=
  exists e, run = ([Called_handle_auth_error e], Ok (handle_auth_error e)).

(** [require_token(adapter)(func)], the [sync_wrapper] of lines 30-40. *)
Definition require_token (args : list Arg) (kw : kwargs Arg) : traced Arg Resp :=
  try_except_AuthError
    (let auth_header := get_auth_header args kw in
     _ <~ lift (if missing_or_invalid auth_header
                then Raise (ExAuth (AuthError_default
                                      "Authorization header is missing or invalid"))
                else Ok tt) ;;
     token <~ lift (index_list
                      (split " " (match auth_header with Some h => h | None => "" end)) 1) ;;
     payload <~ lift (simple_decode token) ;;
     let kw := with_user_payload kw payload in
     call_func args kw)
    call_handle_auth_error.

(** [require_access(adapter, allowed_roles)(func)], the [sync_wrapper] of
    lines 52-70. *)
Definition require_access (allowed_roles : list string)
  (args : list Arg) (kw : kwargs Arg) : traced Arg Resp :=
  try_except_AuthError
    (let auth_header := get_auth_header args kw in
     _ <~ lift (if missing_or_invalid auth_header
                then Raise (ExAuth (AuthError_default
                                      "Authorization header is missing or invalid"))
                else Ok tt) ;;
     token <~ lift (index_list
                      (split " " (match auth_header with Some h => h | None => "" end)) 1) ;;
     payload <~ lift (simple_decode token) ;;
     (* Role Check *)
     user_role <~ lift (json_get payload "role") ;;
     _ <~ lift (if negb (truthy user_role) || negb (py_in user_role allowed_roles)
                then Raise (ExAuth (mkAuthError
                                      "You do not have permission to access this resource"
                                      403))
                else Ok tt) ;;
     let kw := with_user_payload kw payload in
     call_func args kw)
    call_handle_auth_error.

End Decorators.

(** How often a wrapped call invoked [func]. *)
Fixpoint func_calls {Arg : Type} (log : list (event Arg)) : nat :=
  match log with
  | [] => 0
  | Called_func _ _ :: log' => S (func_calls log')
  | Called_handle_auth_error _ :: log' => func_calls log'
  end.

(** How often a wrapped call invoked [adapter.handle_auth_error]. *)
Fixpoint auth_error_calls {Arg : Type} (log : list (event Arg)) : nat :=
  match log with
  | [] => 0
  | Called_func _ _ :: log' => auth_error_calls log'
  | Called_handle_auth_error _ :: log' => S (auth_error_calls log')
  end.

(** Exactly one of the two outcomes: the handler was invoked, or the
    adapter's converter was, but not both and not neither. *)
Definition exactly_one_outcome {Arg : Type} (log : list (event Arg)) : Prop :=
  (func_calls log = 1 /\ auth_error_calls log = 0) \/
  (func_calls log = 0 /\ auth_error_calls log = 1).

(** The role claim is present, is a non-empty string and is one of the
    allowed roles. *)
Definition role_permitted (members : list (string * json))
  (allowed_roles : list string) : Prop :=
  exists role,
    member "role" members = Some (JStr role) /\ role <> "" /\ In role allowed_roles.

(** The role check of [require_access], line 63, passes. *)
Definition role_allowed (user_role : json) (allowed_roles : list string) : bool :=
  truthy user_role && py_in user_role allowed_roles.

(** [FlaskAdapter()] while [request] is the request being served. *)
Definition flask_adapter (Arg : Type) (request : FlaskAdapter.request)
  : FrameworkAdapter Arg Response :=
  {| get_auth_header := fun _ _ => FlaskAdapter.get_auth_header request;
     handle_auth_error := FlaskAdapter.handle_auth_error |}.

End Auth.

(* ===================================================================== *)
(** ** [auth_utils.py] *)
(* ===================================================================== *)

Module AuthUtils.

(** [ACCESS_TOKEN_EXPIRE_MINUTES], line 12: the environment's value when
    it is set, 30 otherwise. *)
Definition ACCESS_TOKEN_EXPIRE_MINUTES (env : option Z) : Z :=
  match env with
  | Some minutes => minutes
  | None => 30
  end.

(** The system clock: the time each successive read returns, in
    microseconds since the epoch (the resolution of [datetime]); the state
    is the number of reads made so far. *)
Definition clock : Type := nat -> Z.

(** [datetime.now(timezone.utc)]. *)
Definition now (readings : clock) (reads : nat) : Z * nat :=
  (readings reads, S reads).

(** [dt + timedelta(minutes=m)]. *)
Definition plus_minutes (dt minutes : Z) : Z :=
  (dt + minutes * 60 * 1000000)%Z.

(** [int(dt.timestamp())]: whole seconds since the epoch, rounded toward
    zero. *)
Definition int_timestamp (dt : Z) : Z := Z.quot dt 1000000.

Section Token.

Variable env_minutes : option Z.

(** [jwt.JWT(header={"alg": ALGORITHM}, claims=claims)], signed with
    [JWK_KEY] and serialized: the library's part, lines 37-39. *)
Variable serialize_signed : dict -> string.

Variable readings : clock.

(** Lines 32-36 of [create_access_token]: the claims that get signed.  The
    value of ["exp"] is evaluated before the value of ["iat"]. *)
Definition access_token_claims (data : dict) (reads : nat) : dict * nat :=
  let claims := data in
  let '(t_exp, reads) := now readings reads in
  let exp := int_timestamp (plus_minutes t_exp (ACCESS_TOKEN_EXPIRE_MINUTES env_minutes)) in
  let '(t_iat, reads) := now readings reads in
  let iat := int_timestamp t_iat in
  (update_members claims [("exp", JInt exp); ("iat", JInt iat)], reads).

(** [create_access_token], lines 30-39. *)
Definition create_access_token (data : dict) (reads : nat) : string * nat :=
  let '(claims, reads) := access_token_claims data reads in
  (serialize_signed claims, reads).

End Token.

(** The value of a hexadecimal digit. *)
Definition hexval (c : ascii) : option nat :=
  let n := nat_of_ascii c in
  if ((48 <=? n) && (n <=? 57))%nat then Some (n - 48)
  else if ((97 <=? n) && (n <=? 102))%nat then Some (n - 87)
  else if ((65 <=? n) && (n <=? 70))%nat then Some (n - 55)
  else None.

(** ASCII whitespace: space, tab, line feed, vertical tab, form feed,
    carriage return. *)
Definition is_space (c : ascii) : bool :=
  let n := nat_of_ascii c in
  ((n =? 32) || ((9 <=? n) && (n <=? 13)))%nat.

(** [bytes.fromhex(s)]: two hexadecimal digits per byte, whitespace
    allowed before a pair and at the end; [None] stands for
    [ValueError]. *)
Fixpoint fromhex (s : string) : option bytes :=
  match s with
  | EmptyString => Some EmptyString
  | String c rest =>
      if is_space c then fromhex rest
      else
        match hexval c, rest with
        | Some top, String c' rest' =>
            match hexval c' with
            | Some bot =>
                match fromhex rest' with
                | Some tail => Some (String (ascii_of_nat (top * 16 + bot)) tail)
                | None => None
                end
            | None => None
            end
        | _, _ => None
        end
  end.

(** [SECRET_KEY], line 10: the environment's value when it is set. *)
Definition SECRET_KEY (env : option string) : string :=
  match env with
  | Some key => key
  | None => "default-secret-key-for-dev"
  end.

(** [raw_key], line 16, evaluated when the module is imported. *)
Definition raw_key (env : option string) : result bytes :=
  or_raise "ValueError" (fromhex (SECRET_KEY env)).

Section Decode.

(** [jwt.JWT(key=JWK_KEY, jwt=token)] followed by [.claims]: the claims
    as JSON text when the token verifies, an exception of the library
    otherwise; [is_JWException] tells which exceptions derive from
    [JWException]. *)
Variable jwt_verify : string -> result string.
Variable is_JWException : exn -> bool.
Variable json_loads : string -> option json.

(** [decode_access_token], lines 41-49. *)
Definition decode_access_token (token : string) : result json :=
  match (claims <- jwt_verify token ;;
         or_raise "JSONDecodeError" (json_loads claims)) with
  | Ok payload => Ok payload
  | Raise e =>
      if is_JWException e
      then Raise (ExAuth (mkAuthError "Invalid token" 401))
      else Raise (ExAuth (mkAuthError "Could not validate credentials" 401))
  end.

End Decode.

End AuthUtils.

(* ===================================================================== *)
(** ** [server.py] *)
(* ===================================================================== *)

Module Server.

(** An entry of [users_db], lines 16-18. *)
Record user : Type := mkUser
  { password : string;
    user_id : Z;
    role : string }.

(** [users_db] as the module defines it. *)
Definition initial_users_db : Dict.t string user :=
  [("testuser", mkUser "password123" 1 "admin")].

(** [LoginSchema], lines 22-25. *)
Record LoginSchema : Type := mkLoginSchema
  { username : string;
    login_password : string }.

(** [jsonify(...)] with the default status. *)
Definition jsonify (body : json) : Response :=
  {| response_json := body; response_status := 200 |}.

Section Endpoints.

(** The state the endpoints read: the user table, the environment's
    expiry window, the token library and the clock. *)
Variable users_db : Dict.t string user.
Variable env_minutes : option Z.
Variable serialize_signed : dict -> string.
Variable readings : AuthUtils.clock.

(** [login], lines 83-90. *)
Definition login (validated : LoginSchema) (reads : nat) : Response * nat :=
  match Dict.get String.eqb users_db (username validated) with
  | None =>
      ({| response_json := JObj [("detail", JStr "Invalid username or password")];
          response_status := 401 |}, reads)
  | Some user =>
      if negb (password user =? login_password validated)
      then ({| response_json := JObj [("detail", JStr "Invalid username or password")];
               response_status := 401 |}, reads)
      else
        let token_payload : dict :=
          [(JStr "sub", JInt (user_id user)); (JStr "role", JStr (role user))] in
        let '(access_token, reads) :=
          AuthUtils.create_access_token env_minutes serialize_signed readings
            token_payload reads in
        (jsonify (JObj [("access_token", JStr access_token);
                        ("token_type", JStr "bearer")]), reads)
  end.

End Endpoints.

(** [get_profile], lines 109-111, called with the positional and keyword
    arguments of the wrapper: the function has the one parameter
    [user_payload], so any other shape of call is a [TypeError]. *)
Definition get_profile (args : list json) (kw : kwargs json) : result Response :=
  let answer (user_payload : json) : Response :=
    jsonify
      (JObj [("message", JStr "You can see this because you are logged in.");
             ("your_user_data", user_payload)]) in
  match args, kw with
  | [], [(name, value)] =>
      if name =? "user_payload"
      then Ok (answer (match value with Given a => a | Payload p => p end))
      else Raise (ExPy "TypeError")
  | [user_payload], [] => Ok (answer user_payload)
  | _, _ => Raise (ExPy "TypeError")
  end.

Section Profile.

Variable urlsafe_b64decode : string -> option bytes.
Variable json_loads : bytes -> option json.

(** The view behind [GET /profile], lines 107-111: [get_profile] under
    [require_flask_token()], called by Flask without arguments. *)
Definition profile_view (request : FlaskAdapter.request) : Auth.traced json Response :=
  Auth.require_token urlsafe_b64decode json_loads
    (adapter := Auth.flask_adapter json request) get_profile [] [].

End Profile.

End Server.

(* ===================================================================== *)
(** ** The validation pipeline *)
(* ===================================================================== *)

Module Validation.

(** Modelled from the spec: [ValidationMode] of
    [apigateway/core/enums/validation_modes.py], which is not part of the
    sources at hand (section 4.2). *)
Inductive ValidationMode : Type := STRICT | LAX | PERMISSIVE.

(** Modelled from the spec: the two switches a mode selects (section 4.2);
    the pipeline module is missing. *)
Definition rejectUnknown (mode : ValidationMode) : bool :=
  match mode with
  | STRICT => true
  | LAX | PERMISSIVE => false
  end.

(** Modelled from the spec: the second switch of section 4.2; the pipeline
    module is missing. *)
Definition coerce (mode : ValidationMode) : bool :=
  match mode with
  | STRICT => false
  | LAX | PERMISSIVE => true
  end.

(** Modelled from the spec: a [FieldError] is a path and a message
    (section 3); the pipeline module is missing. *)
Definition FieldError : Type := (string * string)%type.

(** Modelled from the spec: the default error formatter maps every field
    error to a [{path, message}] record (section 4.4, step 3); the
    pipeline module is missing. *)
Definition default_formatter (errors : list FieldError) : list json :=
  map (fun e => JObj [("path", JStr (fst e)); ("message", JStr (snd e))]) errors.

Section Pipeline.

Variables Ctx Raw Obj Resp : Type.

(** Modelled from the spec: what an adapter's [extract] yields, the raw
    mapping or, for FastAPI, the mapping with the object the framework
    already validated (section 4.1); [apigateway/core/validation.py] is
    missing. *)
Inductive extraction : Type :=
| RawData (raw : Raw)
| PreValidated (raw : Raw) (obj : Obj).

(** Modelled from the spec: the adapter contract the pipeline uses
    (section 4.1); [apigateway/core/validation.py] is missing. *)
Record adapter : Type := mkAdapter
  { extract : Ctx -> result extraction;
    convertValidationError : GatewayValidationError -> result Resp }.

(** Modelled from the spec: the schema capability, with the two switches
    of the mode, answers with field errors or with a validated object
    (section 2); it lies outside the repository. *)
Definition schema : Type := bool -> bool -> Raw -> list FieldError + Obj.

(** Modelled from the spec: "each validator runs in declared order, each
    receiving and returning the object" (section 4.4, steps 2 and 4);
    [apigateway/core/validation.py] is missing. *)
Fixpoint run_validators {A : Type} (validators : list (A -> result A)) (a : A)
  : result A :=
  match validators with
  | [] => Ok a
  | v :: rest => a' <- v a ;; run_validators rest a'
  end.

Variable the_adapter : adapter.
Variable the_schema : schema.
Variable mode : ValidationMode.
Variable preValidators : list (Raw -> result Raw).
Variable postValidators : list (Obj -> result Obj).
Variable errorFormatter : list FieldError -> list json.

(** How an exception that is not yet a validation error is turned into
    one, and the message of a schema failure: the specification leaves
    both open. *)
Variable as_validation_error : exn -> GatewayValidationError.
Variable schema_failure_message : string.

(** Modelled from the spec: steps 1 to 3 of section 4.4, extraction,
    pre-validators and, unless the adapter signalled an object that is
    already validated, the schema under the mode's policy;
    [apigateway/core/validation.py] is missing. *)
Definition validated_object (ctx : Ctx) : result Obj :=
  extracted <- extract the_adapter ctx ;;
  match extracted with
  | PreValidated raw obj =>
      _ <- run_validators preValidators raw ;;
      Ok obj
  | RawData raw =>
      raw <- run_validators preValidators raw ;;
      match the_schema (rejectUnknown mode) (coerce mode) raw with
      | inr obj => Ok obj
      | inl errors =>
          Raise (ExValidation
                   (mkGatewayValidationError schema_failure_message
                                             (errorFormatter errors)))
      end
  end.

(** Modelled from the spec: step 4 of section 4.4, the post-validators in
    declared order; one that raises is converted to a
    [GatewayValidationError]; [apigateway/core/validation.py] is missing. *)
Definition delivered_object (ctx : Ctx) : result Obj :=
  obj <- validated_object ctx ;;
  try_except (run_validators postValidators obj)
    (fun e => Raise (ExValidation
                       (match e with
                        | ExValidation g => g
                        | _ => as_validation_error e
                        end))).

(** Modelled from the spec: steps 5 and 6 of section 4.4, the handler
    gets the final object, any error goes to the adapter's converter;
    [apigateway/core/validation.py] is missing. *)
Definition validate (handler : Obj -> result Resp) (ctx : Ctx) : result Resp :=
  match delivered_object ctx with
  | Ok obj => handler obj
  | Raise (ExValidation g) => convertValidationError the_adapter g
  | Raise e => convertValidationError the_adapter (as_validation_error e)
  end.

End Pipeline.

End Validation.

(* ===================================================================== *)
(** ** Sample requests, tokens and library behaviour *)
(* ===================================================================== *)

(** The double quote character, for JSON texts. *)
Definition dq : string := String (ascii_of_nat 34) EmptyString.

(** [b.decode('utf-8')] on ASCII bytes gives the same characters. *)
Definition ascii_decode_utf8 (b : bytes) : option string := Some b.

Module Sample.

(** The text [{"k": "c"}]. *)
Definition body_k_c : bytes :=
  ("{" ++ dq ++ "k" ++ dq ++ ": " ++ dq ++ "c" ++ dq ++ "}")%string.

(** [json.loads] on the texts used below; no other text is asked for. *)
Definition json_loads (text : string) : option json :=
  if text =? body_k_c then Some (JObj [("k", JStr "c")])
  else if text =? "{}" then Some (JObj [])
  else if text =? "[1]" then Some (JArr [JInt 1])
  else None.

(** A request [POST /?k=a] whose form holds [k=b] and whose JSON body is
    [{"k": "c"}]. *)
Definition django_three_sources : DjangoAdapter.request :=
  {| DjangoAdapter.content_type := Some "application/json";
     DjangoAdapter.body := body_k_c;
     DjangoAdapter.POST := Some [("k", ["b"])];
     DjangoAdapter.GET := Some [("k", ["a"])] |}.

(** The same three sources as Flask's request proxy shows them. *)
Definition flask_three_sources : FlaskAdapter.request :=
  {| FlaskAdapter.args := [("k", ["a"])];
     FlaskAdapter.form := [("k", ["b"])];
     FlaskAdapter.is_json := true;
     FlaskAdapter.get_json := Ok (JObj [("k", JStr "c")]);
     FlaskAdapter.headers_get := fun _ => None |}.

(** A Flask request that carries the given [Authorization] header. *)
Definition flask_with_header (auth_header : option string) : FlaskAdapter.request :=
  {| FlaskAdapter.args := [];
     FlaskAdapter.form := [];
     FlaskAdapter.is_json := false;
     FlaskAdapter.get_json := Raise (ExPy "BadRequest");
     FlaskAdapter.headers_get :=
       fun name => if name =? "Authorization" then auth_header else None |}.

(** The texts [{"role": ""}] and [{"role": "admin"}]. *)
Definition payload_role_empty : bytes :=
  ("{" ++ dq ++ "role" ++ dq ++ ": " ++ dq ++ dq ++ "}")%string.

Definition payload_role_admin : bytes :=
  ("{" ++ dq ++ "role" ++ dq ++ ": " ++ dq ++ "admin" ++ dq ++ "}")%string.

(** [base64.urlsafe_b64decode] on the padded segments used below. *)
Definition urlsafe_b64decode (segment : string) : option bytes :=
  if segment =? "e30=" then Some "{}"
  else if segment =? "WzFd" then Some "[1]"
  else if segment =? "eyJyb2xlIjogIiJ9" then Some payload_role_empty
  else if segment =? "eyJyb2xlIjogImFkbWluIn0=" then Some payload_role_admin
  else None.

(** [json.loads] on the decoded payloads used below. *)
Definition json_loads_bytes (payload : bytes) : option json :=
  if payload =? "{}" then Some (JObj [])
  else if payload =? "[1]" then Some (JArr [JInt 1])
  else if payload =? payload_role_empty then Some (JObj [("role", JStr "")])
  else if payload =? payload_role_admin then Some (JObj [("role", JStr "admin")])
  else None.

(** A handler that answers 200 and one that raises [AuthError] itself. *)
Definition ok_response : Response :=
  {| response_json := JObj [("status", JStr "success")]; response_status := 200 |}.

Definition handler_ok (args : list json) (kw : kwargs json) : result Response :=
  Ok ok_response.

Definition handler_raising (args : list json) (kw : kwargs json) : result Response :=
  Raise (ExAuth (mkAuthError "Token revoked" 401)).

(** The Flask adapter serving a request with the given header. *)
Definition adapter_with_header (auth_header : option string)
  : FrameworkAdapter json Response :=
  Auth.flask_adapter json (flask_with_header auth_header).

(** [require_flask_token()] and [require_flask_access(allowed_roles)] on a
    request with the given header, with no argument of the framework. *)
Definition run_token (auth_header : option string)
  (func : list json -> kwargs json -> result Response)
  : Auth.traced json Response :=
  Auth.require_token urlsafe_b64decode json_loads_bytes
    (adapter := adapter_with_header auth_header) func [] [].

Definition run_access (auth_header : option string) (allowed_roles : list string)
  (func : list json -> kwargs json -> result Response)
  : Auth.traced json Response :=
  Auth.require_access urlsafe_b64decode json_loads_bytes
    (adapter := adapter_with_header auth_header) func allowed_roles [] [].

(** Two reads of the clock one microsecond apart, on either side of a
    full second (4 November 2025, 16:00:00 UTC and the second after). *)
Definition clock_across_second : AuthUtils.clock :=
  fun reads =>
    match reads with
    | O => 1762272000999999%Z
    | _ => 1762272001000000%Z
    end.

(** Two reads within one second. *)
Definition clock_within_second : AuthUtils.clock :=
  fun reads =>
    match reads with
    | O => 1762272000000100%Z
    | _ => 1762272000000250%Z
    end.

(** The claims the login endpoint of [server.py] passes, line 88. *)
Definition login_claims : dict :=
  [(JStr "sub", JInt 1); (JStr "role", JStr "admin")].

(** [c.upper()] for one ASCII character, and [s.upper()]. *)
Definition upper_char (c : ascii) : ascii :=
  let n := nat_of_ascii c in
  if andb (Nat.leb 97 n) (Nat.leb n 122) then ascii_of_nat (n - 32) else c.

Fixpoint upper (s : string) : string :=
  match s with
  | EmptyString => EmptyString
  | String c rest => String (upper_char c) (upper rest)
  end.

(** The two post-validators of [test_fastapi_post_validators], lines
    53-60, on a model reduced to its [username]. *)
Definition audit_user (user : string) : result string :=
  Ok ("audited_" ++ user)%string.

Definition uppercase_username (user : string) : result string :=
  Ok (upper user).

(** An adapter in the manner of FastAPI's: the context is the model the
    framework already validated. *)
Definition prevalidated_adapter : Validation.adapter string string string string :=
  {| Validation.extract := fun user => Ok (Validation.PreValidated user user);
     Validation.convertValidationError := fun e => Raise (ExValidation e) |}.

(** A schema that accepts every mapping as it is. *)
Definition accept_all : Validation.schema string string :=
  fun _ _ raw => inr raw.

(** How the sample pipeline wraps a foreign exception. *)
Definition wrap_exn (e : exn) : GatewayValidationError :=
  mkGatewayValidationError "Validation failed" [].

(** The handler of the test: it answers with the [username]. *)
Definition echo_handler (user : string) : result string := Ok user.

(** A form post [q=y] to [/search?q=x&tag=a&tag=b]. *)
Definition flask_form_and_query : FlaskAdapter.request :=
  {| FlaskAdapter.args := [("q", ["x"]); ("tag", ["a"; "b"])];
     FlaskAdapter.form := [("q", ["y"])];
     FlaskAdapter.is_json := false;
     FlaskAdapter.get_json := Raise (ExPy "UnsupportedMediaType");
     FlaskAdapter.headers_get := fun _ => None |}.

(** The same request with the JSON body [{"k": "c"}] instead of a form
    of its own making, and one whose JSON body is the number 5, and one
    whose body does not parse. *)
Definition flask_json_object : FlaskAdapter.request :=
  {| FlaskAdapter.args := [("q", ["x"]); ("tag", ["a"; "b"])];
     FlaskAdapter.form := [("q", ["y"])];
     FlaskAdapter.is_json := true;
     FlaskAdapter.get_json := Ok (JObj [("k", JStr "c")]);
     FlaskAdapter.headers_get := fun _ => None |}.

Definition flask_json_number : FlaskAdapter.request :=
  {| FlaskAdapter.args := [];
     FlaskAdapter.form := [];
     FlaskAdapter.is_json := true;
     FlaskAdapter.get_json := Ok (JInt 5);
     FlaskAdapter.headers_get := fun _ => None |}.

Definition flask_json_unparsable : FlaskAdapter.request :=
  {| FlaskAdapter.args := [("q", ["x"])];
     FlaskAdapter.form := [];
     FlaskAdapter.is_json := true;
     FlaskAdapter.get_json := Raise (ExPy "BadRequest");
     FlaskAdapter.headers_get := fun _ => None |}.

(** [json.loads] on the text [5]. *)
Definition json_loads_five (text : string) : option json :=
  if text =? "5" then Some (JInt 5) else None.

(** A Django form post [q=y] to [/search?q=x], and a request with the
    JSON body [5]. *)
Definition django_form_and_query : DjangoAdapter.request :=
  {| DjangoAdapter.content_type := Some "application/x-www-form-urlencoded";
     DjangoAdapter.body := "q=y";
     DjangoAdapter.POST := Some [("q", ["y"])];
     DjangoAdapter.GET := Some [("q", ["x"])] |}.

Definition django_json_number : DjangoAdapter.request :=
  {| DjangoAdapter.content_type := Some "application/json";
     DjangoAdapter.body := "5";
     DjangoAdapter.POST := None;
     DjangoAdapter.GET := None |}.

(** A token library that stands for every signed token the same way;
    only where its result goes is looked at. *)
Definition serialize_opaque (claims : dict) : string := "header.claims.signature".

(** The login of [testuser] with the right password. *)
Definition testuser_login : Server.LoginSchema :=
  Server.mkLoginSchema "testuser" "password123".

End Sample.

(* ===================================================================== *)
(** * Properties *)
(* ===================================================================== *)

(** ** Dictionaries *)

Section DictFacts.

Variables K V : Type.
Variable eqb : K -> K -> bool.

Lemma get_setitem_same (d : Dict.t K V) (k : K) (v : V) :
  eqb k k = true ->
  Dict.get eqb (Dict.setitem eqb d k v) k = Some v.
Proof.
  intros Hrefl.
  induction d as [|[k' v'] d IH]; simpl.
  - now rewrite Hrefl.
  - destruct (eqb k' k) eqn:E; simpl; rewrite E; auto.
Qed.

Lemma get_setitem_other (d : Dict.t K V) (k k0 : K) (v : V) :
  (forall k', eqb k' k = true -> eqb k' k0 = false) ->
  eqb k k0 = false ->
  Dict.get eqb (Dict.setitem eqb d k v) k0 = Dict.get eqb d k0.
Proof.
  intros Hsep Hne.
  induction d as [|[k' v'] d IH]; simpl.
  - now rewrite Hne.
  - destruct (eqb k' k) eqn:E; simpl.
    + rewrite (Hsep _ E). reflexivity.
    + destruct (eqb k' k0); auto.
Qed.

End DictFacts.

Lemma key_eqb_str (x : json) (k : string) :
  key_eqb x (JStr k) = true -> x = JStr k.
Proof.
  destruct x; simpl; try discriminate.
  intros H. apply String.eqb_eq in H. now subst.
Qed.

Lemma getitem_setitem_same (d : dict) (k : string) (v : json) :
  getitem (setitem d (JStr k) v) (JStr k) = Some v.
Proof.
  apply get_setitem_same. simpl. apply String.eqb_refl.
Qed.

Lemma getitem_setitem_other (d : dict) (k k0 : string) (v : json) :
  k <> k0 ->
  getitem (setitem d (JStr k) v) (JStr k0) = getitem d (JStr k0).
Proof.
  intros Hne.
  assert (E : key_eqb (JStr k) (JStr k0) = false)
    by (simpl; now apply String.eqb_neq).
  apply get_setitem_other; [|exact E].
  intros k' Hk'. apply key_eqb_str in Hk'. now subst.
Qed.

(** Looking a name up after [d.update(members)]: the last member of that
    name if there is one, the old entry otherwise. *)
Lemma getitem_update_members (members : list (string * json)) (d : dict) (k : string) :
  getitem (update_members d members) (JStr k) =
  match member k members with
  | Some v => Some v
  | None => getitem d (JStr k)
  end.
Proof.
  unfold member.
  induction members as [|[k' v'] members IH] using rev_ind; simpl.
  - reflexivity.
  - unfold update_members in *. rewrite !fold_left_app. simpl.
    destruct (String.eqb_spec k' k) as [->|Hne].
    + now rewrite !getitem_setitem_same.
    + rewrite !getitem_setitem_other by assumption. exact IH.
Qed.

(** A parsed object that has a member is not empty, so it is true in an
    [if]. *)
Lemma member_truthy (k : string) (members : list (string * json)) (c : json) :
  member k members = Some c -> truthy (JObj members) = true.
Proof.
  destruct members; [discriminate | reflexivity].
Qed.

(* --------------------------------------------------------------------- *)
(** ** Merge precedence of the extraction *)
(* --------------------------------------------------------------------- *)

(** Flask: whatever the query string and the form hold, a name of the
    JSON body ends up with the body's value. *)
Lemma flask_extract_json_wins
  (req : FlaskAdapter.request) (members : list (string * json))
  (k : string) (c : json) :
  FlaskAdapter.is_json req = true ->
  FlaskAdapter.get_json req = Ok (JObj members) ->
  member k members = Some c ->
  exists data,
    FlaskAdapter.extract_request_data req = Ok data /\
    getitem data (JStr k) = Some c.
Proof.
  intros Hjson Hget Hmem.
  unfold FlaskAdapter.extract_request_data.
  rewrite Hjson, Hget. cbn [bind try_except].
  rewrite (member_truthy _ _ Hmem). cbn [update try_except].
  eexists. split; [reflexivity|].
  rewrite getitem_update_members, Hmem. reflexivity.
Qed.

(** The merge loops of the Django adapter leave a key that the source
    does not name as it was. *)
Lemma django_merge_lists_other (md : MultiDict) (d : dict) (k : string) :
  ~ In k (map fst md) ->
  getitem (DjangoAdapter.merge_lists md d) (JStr k) = getitem d (JStr k).
Proof.
  revert d. unfold DjangoAdapter.merge_lists.
  induction md as [|[k' vs'] md IH]; intros d Hnot; simpl in *.
  - reflexivity.
  - rewrite IH by tauto.
    apply getitem_setitem_other. intros ->. tauto.
Qed.

Lemma django_merge_lists_get (md : MultiDict) (d : dict) (k : string) (vs : list string) :
  NoDup (map fst md) ->
  In (k, vs) md ->
  getitem (DjangoAdapter.merge_lists md d) (JStr k) = Some (flatten vs).
Proof.
  revert d.
  induction md as [|[k' vs'] md IH]; intros d Hnd Hin; simpl in *.
  - contradiction.
  - inversion Hnd as [|? ? Hnot Hnd']; subst.
    destruct Hin as [Heq|Hin].
    + inversion Heq; subst.
      change (getitem (DjangoAdapter.merge_lists md
                         (setitem d (JStr k) (flatten vs))) (JStr k)
              = Some (flatten vs)).
      rewrite django_merge_lists_other by assumption.
      apply getitem_setitem_same.
    + apply (IH _ Hnd' Hin).
Qed.

(** Django: a key of the query string ends up with the query string's
    value, whatever the form and the JSON body hold. *)
Lemma django_extract_query_wins
  (decode_utf8 : bytes -> option string) (json_loads : string -> option json)
  (req : DjangoAdapter.request) (md : MultiDict) (data : dict)
  (k : string) (vs : list string) :
  DjangoAdapter.extract_request_data decode_utf8 json_loads req = Ok data ->
  DjangoAdapter.GET req = Some md ->
  NoDup (map fst md) ->
  In (k, vs) md ->
  getitem data (JStr k) = Some (flatten vs).
Proof.
  intros Hex Hget Hnd Hin.
  unfold DjangoAdapter.extract_request_data in Hex.
  match type of Hex with
  | bind ?m _ = _ => destruct m as [d0|e]; cbn [bind] in Hex; [|discriminate]
  end.
  inversion Hex; subst data; clear Hex.
  rewrite Hget. unfold DjangoAdapter.merge_attr at 1.
  destruct md as [|p md']; [contradiction|].
  now apply django_merge_lists_get.
Qed.

Example flask_three_sources_json_wins :
  FlaskAdapter.extract_request_data Sample.flask_three_sources
  = Ok [(JStr "k", JStr "c")].
Proof. reflexivity. Qed.

(** C1 (the Django half fails).  The claim: with the same key in the
    query string (value a), the form (value b) and the JSON body (value c),
    the extracted mapping gives the key the value c, for both adapters.
    On such a request the Django adapter, which merges the JSON body
    first and the query string last, extracts the query string's a. *)
Theorem django_three_sources_query_wins :
  DjangoAdapter.extract_request_data ascii_decode_utf8 Sample.json_loads
    Sample.django_three_sources
  = Ok [(JStr "k", JStr "a")].
Proof. reflexivity. Qed.

(* --------------------------------------------------------------------- *)
(** ** A body that does not parse *)
(* --------------------------------------------------------------------- *)

(** C6.  A request that declares JSON but whose body does not parse makes
    [extract_request_data] raise a [GatewayValidationError], with the
    message [Invalid JSON format in request body] in the Flask adapter
    and [Invalid JSON in request body] in the Django adapter.  The result
    is the raised error alone: what the query string and the form had
    contributed is dropped with it. *)
Theorem extract_invalid_json_raises :
  (forall (req : FlaskAdapter.request) (e : exn),
      FlaskAdapter.is_json req = true ->
      FlaskAdapter.get_json req = Raise e ->
      FlaskAdapter.extract_request_data req =
      Raise (ExValidation
               (mkGatewayValidationError "Invalid JSON format in request body" [])))
  /\
  (forall (decode_utf8 : bytes -> option string) (json_loads : string -> option json)
          (req : DjangoAdapter.request) (ct : string),
      DjangoAdapter.content_type req = Some ct ->
      contains "application/json" ct = true ->
      (decode_utf8 (DjangoAdapter.body req) = None \/
       exists text, decode_utf8 (DjangoAdapter.body req) = Some text /\
                    json_loads text = None) ->
      DjangoAdapter.extract_request_data decode_utf8 json_loads req =
      Raise (ExValidation
               (mkGatewayValidationError "Invalid JSON in request body" []))).
Proof.
  split.
  - intros req e Hjson Hget.
    unfold FlaskAdapter.extract_request_data.
    now rewrite Hjson, Hget.
  - intros decode_utf8 json_loads req ct Hct Hin Hbad.
    unfold DjangoAdapter.extract_request_data.
    rewrite Hct, Hin.
    destruct Hbad as [Hdec|[text [Hdec Hload]]]; rewrite Hdec; cbn.
    + reflexivity.
    + rewrite Hload. reflexivity.
Qed.

(* --------------------------------------------------------------------- *)
(** ** Conversion of a validation error *)
(* --------------------------------------------------------------------- *)

(** C7.  The converters of a [GatewayValidationError] [e]: Flask answers
    422 with the JSON body [{message: e.message, details: e.details}],
    Django answers 400 with [{error: e.message, details: e.details}], and
    the generic adapter raises [e] again, unchanged. *)
Theorem handle_validation_error_shapes (e : GatewayValidationError) :
  FlaskAdapter.handle_validation_error e =
    {| response_json := JObj [("message", JStr (gve_message e));
                              ("details", JArr (details e))];
       response_status := 422 |}
  /\ DjangoAdapter.handle_validation_error e =
    {| response_json := JObj [("error", JStr (gve_message e));
                              ("details", JArr (details e))];
       response_status := 400 |}
  /\ GenericAdapter.handle_validation_error e = Raise (ExValidation e).
Proof. repeat split. Qed.

(* --------------------------------------------------------------------- *)
(** ** The FastAPI adapter's search for the model *)
(* --------------------------------------------------------------------- *)

Lemma first_model_none (values : list FastAPIAdapter.pyobj) :
  FastAPIAdapter.no_model values -> FastAPIAdapter.first_model values = None.
Proof.
  induction 1 as [|v values Hv _ IH]; simpl; [reflexivity|].
  destruct v; [discriminate | exact IH].
Qed.

Lemma first_model_first (pre post : list FastAPIAdapter.pyobj)
  (m : FastAPIAdapter.BaseModel) :
  FastAPIAdapter.no_model pre ->
  FastAPIAdapter.first_model (pre ++ FastAPIAdapter.PyModel m :: post) = Some m.
Proof.
  induction 1 as [|v pre Hv _ IH]; simpl; [reflexivity|].
  destruct v; [discriminate | exact IH].
Qed.

(** C10.  The FastAPI adapter's [extract_request_data]: the first keyword
    argument that is a Pydantic model is chosen, before any positional
    argument, and the pair of its field mapping and the model itself is
    returned; with no model among the keyword arguments the first
    positional model is returned the same way; with no model at all the
    result is the bare empty mapping. *)
Theorem fastapi_extract_request_data_search
  (args : list FastAPIAdapter.pyobj) (kw : list (string * FastAPIAdapter.pyobj)) :
  (forall pre key m post,
      kw = pre ++ (key, FastAPIAdapter.PyModel m) :: post ->
      FastAPIAdapter.no_model (map snd pre) ->
      FastAPIAdapter.extract_request_data args kw =
      FastAPIAdapter.Tuple (FastAPIAdapter._model_to_dict m) m)
  /\
  (forall pre m post,
      FastAPIAdapter.no_model (map snd kw) ->
      args = pre ++ FastAPIAdapter.PyModel m :: post ->
      FastAPIAdapter.no_model pre ->
      FastAPIAdapter.extract_request_data args kw =
      FastAPIAdapter.Tuple (FastAPIAdapter._model_to_dict m) m)
  /\
  (FastAPIAdapter.no_model (map snd kw) ->
   FastAPIAdapter.no_model args ->
   FastAPIAdapter.extract_request_data args kw = FastAPIAdapter.Bare []).
Proof.
  unfold FastAPIAdapter.extract_request_data.
  repeat split.
  - intros pre key m post -> Hpre.
    rewrite map_app. simpl.
    now rewrite (first_model_first _ _ Hpre).
  - intros pre m post Hkw -> Hpre.
    rewrite (first_model_none Hkw).
    now rewrite (first_model_first _ _ Hpre).
  - intros Hkw Hargs.
    now rewrite (first_model_none Hkw), (first_model_none Hargs).
Qed.

(* --------------------------------------------------------------------- *)
(** ** Strings of the [Authorization] header *)
(* --------------------------------------------------------------------- *)

Lemma split_nonempty (sep : ascii) (s : string) : split sep s <> [].
Proof.
  destruct s as [|c s]; simpl; [discriminate|].
  destruct (Ascii.eqb c sep); [discriminate|].
  destruct (split sep s); discriminate.
Qed.

(** A header that starts with [Bearer ] has a second piece when it is
    split at the spaces: the subscript of lines 35 and 58 cannot fail. *)
Lemma bearer_has_token (h : string) :
  startswith h "Bearer " = true ->
  exists token, nth_error (split " " h) 1 = Some token.
Proof.
  unfold startswith. intros H.
  do 7 (destruct h as [|? h]; [discriminate|];
        simpl in H;
        match type of H with
        | (if ?d then _ else _) = true => destruct d; [subst|discriminate]
        end).
  cbn.
  destruct (split " " h) as [|seg segs] eqn:E.
  - now apply split_nonempty in E.
  - now exists seg.
Qed.

(* --------------------------------------------------------------------- *)
(** ** [simple_decode] *)
(* --------------------------------------------------------------------- *)

Section DecodeFacts.

Variable urlsafe_b64decode : string -> option bytes.
Variable json_loads : bytes -> option json.

Local Abbreviation simple_decode :=
  (Auth.simple_decode urlsafe_b64decode json_loads).
Local Abbreviation structurally_invalid :=
  (Auth.structurally_invalid urlsafe_b64decode json_loads).

(** The only error [simple_decode] raises. *)
Lemma simple_decode_raises (token : string) (e : exn) :
  simple_decode token = Raise e ->
  e = ExAuth (mkAuthError "Invalid token format" 401).
Proof.
  unfold Auth.simple_decode, index_list.
  destruct (nth_error (split "." token) 1) as [seg|]; cbn.
  - destruct (urlsafe_b64decode (Auth.pad seg)) as [raw|]; cbn.
    + destruct (json_loads raw); cbn; congruence.
    + congruence.
  - congruence.
Qed.

(** C5.  [simple_decode] raises [AuthError] with status 401 and message
    [Invalid token format] exactly for the structurally invalid tokens
    (fewer than two segments between dots, a second segment that is not
    base64 once padded, or decoded bytes that are not JSON), and raises
    nothing else; for every other token it returns the JSON value parsed
    from the padded and decoded second segment.  No other segment is
    looked at, so no signature is verified. *)
Theorem simple_decode_invalid_token_format (token : string) :
  (simple_decode token = Raise (ExAuth (mkAuthError "Invalid token format" 401))
   <-> structurally_invalid token)
  /\ (forall e, simple_decode token = Raise e ->
                e = ExAuth (mkAuthError "Invalid token format" 401))
  /\ (~ structurally_invalid token ->
      exists segment raw payload,
        nth_error (split "." token) 1 = Some segment /\
        urlsafe_b64decode (Auth.pad segment) = Some raw /\
        json_loads raw = Some payload /\
        simple_decode token = Ok payload)
  /\ (forall other : string,
        nth_error (split "." other) 1 = nth_error (split "." token) 1 ->
        simple_decode other = simple_decode token).
Proof.
  split; [|split; [|split]].
  - unfold Auth.simple_decode, Auth.structurally_invalid, index_list.
    destruct (nth_error (split "." token) 1) as [seg|] eqn:Hseg; cbn.
    + destruct (urlsafe_b64decode (Auth.pad seg)) as [raw|] eqn:Hraw; cbn.
      * destruct (json_loads raw) as [payload|] eqn:Hload; cbn.
        -- split; [discriminate|].
           intros [Hlen|[[s [Hs Hb]]|[s [r [Hs [Hb Hl]]]]]].
           ++ assert (nth_error (split "." token) 1 = None)
                by (apply nth_error_None; lia).
              congruence.
           ++ congruence.
           ++ congruence.
        -- split; [|reflexivity].
           intros _. right. right. now exists seg, raw.
      * split; [|reflexivity].
        intros _. right. left. now exists seg.
    + split; [|reflexivity].
      intros _. left. apply nth_error_None in Hseg. lia.
  - apply simple_decode_raises.
  - intros Hvalid.
    unfold Auth.simple_decode, Auth.structurally_invalid, index_list in *.
    destruct (nth_error (split "." token) 1) as [seg|] eqn:Hseg; cbn.
    + destruct (urlsafe_b64decode (Auth.pad seg)) as [raw|] eqn:Hraw; cbn.
      * destruct (json_loads raw) as [payload|] eqn:Hload; cbn.
        -- now exists seg, raw, payload.
        -- exfalso. apply Hvalid. right. right. now exists seg, raw.
      * exfalso. apply Hvalid. right. left. now exists seg.
    + exfalso. apply Hvalid. left. apply nth_error_None in Hseg. lia.
  - intros other Hsame.
    unfold Auth.simple_decode, index_list. now rewrite Hsame.
Qed.

End DecodeFacts.

(* --------------------------------------------------------------------- *)
(** ** [require_token] and [require_access], path by path *)
(* --------------------------------------------------------------------- *)

Lemma role_allowed_iff (user_role : json) (allowed_roles : list string) :
  Auth.role_allowed user_role allowed_roles = true <->
  exists role, user_role = JStr role /\ role <> "" /\ In role allowed_roles.
Proof.
  unfold Auth.role_allowed, py_in. rewrite andb_true_iff, existsb_exists.
  split.
  - intros [Ht [r [Hin Heq]]].
    destruct user_role; try discriminate.
    simpl in Heq. apply String.eqb_eq in Heq. subst r.
    exists s. repeat split; auto.
    intros ->. discriminate.
  - intros [role [-> [Hne Hin]]]. split.
    + simpl. apply negb_true_iff. now apply String.eqb_neq.
    + exists role. split; [assumption|]. simpl. apply String.eqb_refl.
Qed.

Section WrapperFacts.

Variable urlsafe_b64decode : string -> option bytes.
Variable json_loads : bytes -> option json.
Variables Arg Resp : Type.
Context {adapter : FrameworkAdapter Arg Resp}.
Variable func : list Arg -> kwargs Arg -> result Resp.

Local Abbreviation simple_decode :=
  (Auth.simple_decode urlsafe_b64decode json_loads).
Local Abbreviation require_token :=
  (Auth.require_token urlsafe_b64decode json_loads func).
Local Abbreviation require_access :=
  (Auth.require_access urlsafe_b64decode json_loads func).

(** The header is rejected before anything else happens. *)
Lemma require_token_header_rejected (args : list Arg) (kw : kwargs Arg) :
  Auth.missing_or_invalid (get_auth_header args kw) = true ->
  require_token args kw =
  Auth.call_handle_auth_error
    (AuthError_default "Authorization header is missing or invalid").
Proof.
  intros H. unfold Auth.require_token. rewrite H. reflexivity.
Qed.

Lemma require_access_header_rejected
  (roles : list string) (args : list Arg) (kw : kwargs Arg) :
  Auth.missing_or_invalid (get_auth_header args kw) = true ->
  require_access roles args kw =
  Auth.call_handle_auth_error
    (AuthError_default "Authorization header is missing or invalid").
Proof.
  intros H. unfold Auth.require_access. rewrite H. reflexivity.
Qed.

(** The token does not decode. *)
Lemma require_token_bad_token
  (args : list Arg) (kw : kwargs Arg) (h token : string) (e : exn) :
  get_auth_header args kw = Some h ->
  Auth.missing_or_invalid (Some h) = false ->
  nth_error (split " " h) 1 = Some token ->
  simple_decode token = Raise e ->
  require_token args kw =
  Auth.call_handle_auth_error (mkAuthError "Invalid token format" 401).
Proof.
  intros Hh Hok Htok Hdec.
  pose proof (simple_decode_raises _ _ _ Hdec) as ->.
  unfold Auth.require_token, index_list.
  rewrite Hh, Hok, Htok. cbn. rewrite Hdec. reflexivity.
Qed.

Lemma require_access_bad_token
  (roles : list string) (args : list Arg) (kw : kwargs Arg)
  (h token : string) (e : exn) :
  get_auth_header args kw = Some h ->
  Auth.missing_or_invalid (Some h) = false ->
  nth_error (split " " h) 1 = Some token ->
  simple_decode token = Raise e ->
  require_access roles args kw =
  Auth.call_handle_auth_error (mkAuthError "Invalid token format" 401).
Proof.
  intros Hh Hok Htok Hdec.
  pose proof (simple_decode_raises _ _ _ Hdec) as ->.
  unfold Auth.require_access, index_list.
  rewrite Hh, Hok, Htok. cbn. rewrite Hdec. reflexivity.
Qed.

(** The token decodes: [require_token] calls the handler. *)
Lemma require_token_decoded
  (args : list Arg) (kw : kwargs Arg) (h token : string) (payload : json) :
  get_auth_header args kw = Some h ->
  Auth.missing_or_invalid (Some h) = false ->
  nth_error (split " " h) 1 = Some token ->
  simple_decode token = Ok payload ->
  require_token args kw =
  Auth.guarded_call func args (Auth.with_user_payload kw payload).
Proof.
  intros Hh Hok Htok Hdec.
  unfold Auth.require_token, Auth.guarded_call, index_list.
  rewrite Hh, Hok, Htok. cbn. rewrite Hdec. cbn.
  unfold Auth.call_func.
  destruct (func args (Auth.with_user_payload kw payload)); reflexivity.
Qed.

(** The token decodes to an object: [require_access] checks the role. *)
Lemma require_access_decoded
  (roles : list string) (args : list Arg) (kw : kwargs Arg)
  (h token : string) (members : list (string * json)) :
  get_auth_header args kw = Some h ->
  Auth.missing_or_invalid (Some h) = false ->
  nth_error (split " " h) 1 = Some token ->
  simple_decode token = Ok (JObj members) ->
  require_access roles args kw =
  if Auth.role_allowed
       (match member "role" members with Some v => v | None => JNull end) roles
  then Auth.guarded_call func args (Auth.with_user_payload kw (JObj members))
  else Auth.call_handle_auth_error
         (mkAuthError "You do not have permission to access this resource" 403).
Proof.
  intros Hh Hok Htok Hdec.
  unfold Auth.require_access, Auth.guarded_call, index_list, Auth.role_allowed.
  rewrite Hh, Hok, Htok. cbn. rewrite Hdec. cbn.
  destruct (truthy _); cbn; [|reflexivity].
  destruct (py_in _ roles); cbn; [|reflexivity].
  unfold Auth.call_func.
  destruct (func args (Auth.with_user_payload kw (JObj members))); reflexivity.
Qed.

(** The token decodes to something that is no object: [payload.get]
    raises [AttributeError], which no [except] clause catches. *)
Lemma require_access_payload_not_object
  (roles : list string) (args : list Arg) (kw : kwargs Arg)
  (h token : string) (payload : json) :
  get_auth_header args kw = Some h ->
  Auth.missing_or_invalid (Some h) = false ->
  nth_error (split " " h) 1 = Some token ->
  simple_decode token = Ok payload ->
  (forall members, payload <> JObj members) ->
  require_access roles args kw = ([], Raise (ExPy "AttributeError")).
Proof.
  intros Hh Hok Htok Hdec Hno.
  unfold Auth.require_access, index_list.
  rewrite Hh, Hok, Htok. cbn. rewrite Hdec. cbn.
  destruct payload; try reflexivity.
  now elim (Hno members).
Qed.

(** What the guarded call of the handler leaves in the log. *)
Lemma guarded_call_cases (args : list Arg) (kw : kwargs Arg) :
  (exists e, func args kw = Raise (ExAuth e) /\
             Auth.guarded_call func args kw =
             ([Auth.Called_func args kw; Auth.Called_handle_auth_error e],
              Ok (handle_auth_error e)))
  \/ ((forall e, func args kw <> Raise (ExAuth e)) /\
      Auth.guarded_call func args kw = ([Auth.Called_func args kw], func args kw)).
Proof.
  unfold Auth.guarded_call, Auth.call_func, Auth.try_except_AuthError.
  destruct (func args kw) as [r|[e|g|n]]; cbn.
  - right. split; [discriminate|reflexivity].
  - left. now exists e.
  - right. split; [discriminate|reflexivity].
  - right. split; [discriminate|reflexivity].
Qed.

End WrapperFacts.

(* --------------------------------------------------------------------- *)
(** ** Properties of the two decorators *)
(* --------------------------------------------------------------------- *)

Lemma bearer_not_missing (h : string) :
  startswith h "Bearer " = true -> Auth.missing_or_invalid (Some h) = false.
Proof.
  intros H. unfold Auth.missing_or_invalid. rewrite H.
  destruct h; [discriminate | reflexivity].
Qed.

Lemma role_permitted_iff (members : list (string * json)) (roles : list string) :
  Auth.role_allowed
    (match member "role" members with Some v => v | None => JNull end) roles = true
  <-> Auth.role_permitted members roles.
Proof.
  rewrite role_allowed_iff. unfold Auth.role_permitted.
  split; intros [role [H1 H2]]; exists role; split; auto.
  - destruct (member "role" members); [congruence|discriminate].
  - now rewrite H1.
Qed.

Section DecoratorClaims.

Variable urlsafe_b64decode : string -> option bytes.
Variable json_loads : bytes -> option json.
Variables Arg Resp : Type.
Context {adapter : FrameworkAdapter Arg Resp}.
Variable func : list Arg -> kwargs Arg -> result Resp.

Local Abbreviation simple_decode :=
  (Auth.simple_decode urlsafe_b64decode json_loads).
Local Abbreviation require_token :=
  (Auth.require_token urlsafe_b64decode json_loads func).
Local Abbreviation require_access :=
  (Auth.require_access urlsafe_b64decode json_loads func).

(** C4.  When [get_auth_header] returns nothing, or a string that does
    not start with [Bearer ], a call through [require_token] or
    [require_access] returns the adapter's conversion of the [AuthError]
    with status 401 and message [Authorization header is missing or
    invalid], and the handler is not invoked; the Flask adapter renders
    that error as the JSON body [{detail: message}] with status 401. *)
Theorem missing_or_malformed_header_is_401
  (roles : list string) (args : list Arg) (kw : kwargs Arg) :
  (get_auth_header args kw = None \/
   exists h, get_auth_header args kw = Some h /\ startswith h "Bearer " = false) ->
  (require_token args kw =
     ([Auth.Called_handle_auth_error
         (mkAuthError "Authorization header is missing or invalid" 401)],
      Ok (handle_auth_error
            (mkAuthError "Authorization header is missing or invalid" 401)))
   /\ Auth.func_calls (fst (require_token args kw)) = 0)
  /\ (require_access roles args kw =
        ([Auth.Called_handle_auth_error
            (mkAuthError "Authorization header is missing or invalid" 401)],
         Ok (handle_auth_error
               (mkAuthError "Authorization header is missing or invalid" 401)))
      /\ Auth.func_calls (fst (require_access roles args kw)) = 0)
  /\ FlaskAdapter.handle_auth_error
       (mkAuthError "Authorization header is missing or invalid" 401) =
     {| response_json :=
          JObj [("detail", JStr "Authorization header is missing or invalid")];
        response_status := 401 |}.
Proof.
  intros Hbad.
  assert (Hrej : Auth.missing_or_invalid (get_auth_header args kw) = true).
  { destruct Hbad as [->|[h [-> Hh]]]; [reflexivity|].
    unfold Auth.missing_or_invalid. rewrite Hh. apply orb_true_r. }
  rewrite (require_token_header_rejected _ _ _ _ _ Hrej).
  rewrite (require_access_header_rejected _ _ _ _ _ _ Hrej).
  repeat split.
Qed.

(** C2, amended.  For every call through [require_token] whose handler
    does not itself raise [AuthError], exactly one of the two outcomes
    happens: the handler is invoked with the decoded payload bound to
    [user_payload], or [handle_auth_error] is invoked and its result
    returned.  The same holds for [require_access] when, besides, the
    payload the token decodes to is a JSON object. *)
Theorem exactly_one_outcome_when_handler_raises_no_AuthError
  (roles : list string) (args : list Arg) (kw : kwargs Arg) :
  (forall a k e, func a k <> Raise (ExAuth e)) ->
  ((Auth.handler_outcome urlsafe_b64decode json_loads func args kw
      (require_token args kw)
    \/ Auth.auth_error_outcome (require_token args kw))
   /\ Auth.exactly_one_outcome (fst (require_token args kw)))
  /\
  ((forall h token payload,
       get_auth_header args kw = Some h ->
       nth_error (split " " h) 1 = Some token ->
       simple_decode token = Ok payload ->
       exists members, payload = JObj members) ->
   (Auth.handler_outcome urlsafe_b64decode json_loads func args kw
      (require_access roles args kw)
    \/ Auth.auth_error_outcome (require_access roles args kw))
   /\ Auth.exactly_one_outcome (fst (require_access roles args kw))).
Proof.
  intros Hfunc.
  assert (Hguard : forall kw', Auth.guarded_call func args kw' =
                               ([Auth.Called_func args kw'], func args kw')).
  { intros kw'. destruct (guarded_call_cases func args kw') as [[e [He _]]|[_ H]].
    - now elim (Hfunc args kw' e).
    - exact H. }
  assert (Herr : forall e : AuthError,
             (Auth.auth_error_outcome (Auth.call_handle_auth_error (Arg:=Arg) e))
             /\ Auth.exactly_one_outcome
                  (fst (Auth.call_handle_auth_error (Arg:=Arg) (Resp:=Resp) e))).
  { intros e. split; [now exists e|]. right. split; reflexivity. }
  destruct (Auth.missing_or_invalid (get_auth_header args kw)) eqn:Hmi.
  { rewrite (require_token_header_rejected _ _ _ _ _ Hmi).
    rewrite (require_access_header_rejected _ _ _ _ _ _ Hmi).
    split; [|intros _]; (split; [right|]); apply Herr. }
  destruct (get_auth_header args kw) as [h|] eqn:Hh; [|discriminate].
  assert (Hpre : startswith h "Bearer " = true).
  { unfold Auth.missing_or_invalid in Hmi.
    apply orb_false_iff in Hmi. destruct Hmi as [_ Hmi].
    now apply negb_false_iff in Hmi. }
  destruct (bearer_has_token h Hpre) as [token Htok].
  destruct (simple_decode token) as [payload|e] eqn:Hdec.
  - split.
    + rewrite (require_token_decoded _ _ _ _ _ Hh Hmi Htok Hdec), Hguard.
      split; [left|left; split; reflexivity].
      now exists h, token, payload.
    + intros Hobj. destruct (Hobj h token payload eq_refl Htok Hdec) as [members ->].
      rewrite (require_access_decoded _ _ _ roles _ _ Hh Hmi Htok Hdec).
      destruct (Auth.role_allowed _ roles).
      * rewrite Hguard. split; [left|left; split; reflexivity].
        now exists h, token, (JObj members).
      * split; [right|]; apply Herr.
  - rewrite (require_token_bad_token _ _ _ _ _ Hh Hmi Htok Hdec).
    rewrite (require_access_bad_token _ _ _ roles _ _ Hh Hmi Htok Hdec).
    split; [|intros _]; (split; [right|]); apply Herr.
Qed.

(** C3, amended.  For every call through [require_access] whose header
    is present and well-formed and whose token decodes to a JSON object,
    the handler is invoked if and only if the role claim is present, is a
    non-empty string and is a member of [allowed_roles]; otherwise the
    call returns the adapter's conversion of the [AuthError] with status
    403 and message [You do not have permission to access this
    resource], and the handler is not invoked. *)
Theorem require_access_role_check
  (roles : list string) (args : list Arg) (kw : kwargs Arg)
  (h token : string) (members : list (string * json)) :
  get_auth_header args kw = Some h ->
  startswith h "Bearer " = true ->
  nth_error (split " " h) 1 = Some token ->
  simple_decode token = Ok (JObj members) ->
  (Auth.func_calls (fst (require_access roles args kw)) = 1
   <-> Auth.role_permitted members roles)
  /\ (Auth.role_permitted members roles ->
      require_access roles args kw =
      Auth.guarded_call func args (Auth.with_user_payload kw (JObj members)))
  /\ (~ Auth.role_permitted members roles ->
      require_access roles args kw =
        ([Auth.Called_handle_auth_error
            (mkAuthError "You do not have permission to access this resource" 403)],
         Ok (handle_auth_error
               (mkAuthError "You do not have permission to access this resource" 403)))
      /\ Auth.func_calls (fst (require_access roles args kw)) = 0).
Proof.
  intros Hh Hpre Htok Hdec.
  pose proof (bearer_not_missing h Hpre) as Hmi.
  rewrite (require_access_decoded _ _ _ roles _ _ Hh Hmi Htok Hdec).
  pose proof (role_permitted_iff members roles) as Hiff.
  destruct (Auth.role_allowed _ roles).
  - assert (Hp : Auth.role_permitted members roles) by now apply Hiff.
    assert (Hone : Auth.func_calls
                     (fst (Auth.guarded_call func args
                             (Auth.with_user_payload kw (JObj members)))) = 1).
    { destruct (guarded_call_cases func args
                  (Auth.with_user_payload kw (JObj members)))
        as [[e [_ ->]]|[_ ->]]; reflexivity. }
    repeat split; auto; intros; tauto.
  - assert (Hp : ~ Auth.role_permitted members roles).
    { intros Hp. apply Hiff in Hp. discriminate. }
    repeat split; try tauto; cbn; try discriminate; reflexivity.
Qed.

End DecoratorClaims.

(* --------------------------------------------------------------------- *)
(** ** [create_access_token] *)
(* --------------------------------------------------------------------- *)

Section TokenFacts.

Variable env_minutes : option Z.
Variable serialize_signed : dict -> string.
Variable readings : AuthUtils.clock.

(** The token is the serialization of the claims of lines 32-36. *)
Lemma create_access_token_signs_claims (data : dict) (reads : nat) :
  AuthUtils.create_access_token env_minutes serialize_signed readings data reads =
  (serialize_signed
     (fst (AuthUtils.access_token_claims env_minutes readings data reads)),
   S (S reads)).
Proof. reflexivity. Qed.

(** X21.  The claims that are signed: [exp] comes from the first read of
    the clock, [iat] from the second; whatever the caller supplied under
    these two names is overwritten, every other claim is kept. *)
Lemma access_token_claims_content (data : dict) (reads : nat) :
  let claims := fst (AuthUtils.access_token_claims env_minutes readings data reads) in
  getitem claims (JStr "exp") =
    Some (JInt (AuthUtils.int_timestamp
                  (AuthUtils.plus_minutes (readings reads)
                     (AuthUtils.ACCESS_TOKEN_EXPIRE_MINUTES env_minutes))))
  /\ getitem claims (JStr "iat") =
       Some (JInt (AuthUtils.int_timestamp (readings (S reads))))
  /\ (forall name, name <> "exp" -> name <> "iat" ->
                   getitem claims (JStr name) = getitem data (JStr name)).
Proof.
  cbn. unfold update_members. cbn. repeat split.
  - rewrite getitem_setitem_other by discriminate.
    apply getitem_setitem_same.
  - apply getitem_setitem_same.
  - intros name H1 H2.
    rewrite !getitem_setitem_other by congruence. reflexivity.
Qed.

(** When both reads of the clock fall in the same second, after the
    epoch, and the window is not negative, [exp - iat] is the window in
    seconds. *)
Lemma access_token_window_within_second (reads : nat) :
  (0 <= readings reads)%Z ->
  (0 <= AuthUtils.ACCESS_TOKEN_EXPIRE_MINUTES env_minutes)%Z ->
  AuthUtils.int_timestamp (readings (S reads)) =
  AuthUtils.int_timestamp (readings reads) ->
  (AuthUtils.int_timestamp
     (AuthUtils.plus_minutes (readings reads)
        (AuthUtils.ACCESS_TOKEN_EXPIRE_MINUTES env_minutes))
   - AuthUtils.int_timestamp (readings (S reads))
   = AuthUtils.ACCESS_TOKEN_EXPIRE_MINUTES env_minutes * 60)%Z.
Proof.
  intros Ht Hm Hsame. rewrite Hsame.
  unfold AuthUtils.int_timestamp, AuthUtils.plus_minutes.
  set (t := readings reads) in *.
  set (m := AuthUtils.ACCESS_TOKEN_EXPIRE_MINUTES env_minutes) in *.
  rewrite !Z.quot_div_nonneg by nia.
  replace (t + m * 60 * 1000000)%Z with (t + (m * 60) * 1000000)%Z by ring.
  rewrite Z.div_add by lia. lia.
Qed.

End TokenFacts.

Example access_token_claims_within_second :
  fst (AuthUtils.access_token_claims None Sample.clock_within_second
         Sample.login_claims 0)
  = [(JStr "sub", JInt 1); (JStr "role", JStr "admin");
     (JStr "exp", JInt 1762273800); (JStr "iat", JInt 1762272000)].
Proof. reflexivity. Qed.

(** C9 (fails when the clock passes a full second between the two
    reads).  The claim: [exp] is the issue time plus the window and [iat]
    the issue time, so that [exp - iat] is
    [ACCESS_TOKEN_EXPIRE_MINUTES * 60].  With the default window of 30
    minutes and two reads one microsecond apart around a full second, the
    signed claims hold [exp = 1762273800] and [iat = 1762272001]: 1799
    seconds apart, not 1800. *)
Theorem access_token_claims_across_second :
  fst (AuthUtils.access_token_claims None Sample.clock_across_second
         Sample.login_claims 0)
  = [(JStr "sub", JInt 1); (JStr "role", JStr "admin");
     (JStr "exp", JInt 1762273800); (JStr "iat", JInt 1762272001)]
  /\ (1762273800 - 1762272001 = 1799)%Z
  /\ (AuthUtils.ACCESS_TOKEN_EXPIRE_MINUTES None * 60 = 1800)%Z.
Proof. repeat split. Qed.

(* --------------------------------------------------------------------- *)
(** ** Post-validators of the pipeline *)
(* --------------------------------------------------------------------- *)

Section PipelineFacts.

Variables Ctx Raw Obj Resp : Type.
Variable the_adapter : Validation.adapter Ctx Raw Obj Resp.
Variable the_schema : Validation.schema Raw Obj.
Variable mode : Validation.ValidationMode.
Variable preValidators : list (Raw -> result Raw).
Variable errorFormatter : list Validation.FieldError -> list json.
Variable as_validation_error : exn -> GatewayValidationError.
Variable schema_failure_message : string.

(** Validators that do not raise compose, first to last. *)
Lemma run_validators_app (A : Type) (vs ws : list (A -> result A)) (a b : A) :
  Validation.run_validators vs a = Ok b ->
  Validation.run_validators (vs ++ ws) a = Validation.run_validators ws b.
Proof.
  revert a. induction vs as [|v vs IH]; intros a H; simpl in *.
  - now inversion H.
  - destruct (v a) as [a'|e]; cbn in *; [auto|discriminate].
Qed.

(** C8.  With the post-validators [f] and [g] registered in that order
    and a validated object [v] on which neither raises, the object
    delivered to the handler is [g (f v)]: [f] receives [v], [g] receives
    the result of [f], and the handler is called with the result of
    [g]. *)
Theorem post_validators_in_declared_order
  (f g : Obj -> result Obj) (handler : Obj -> result Resp)
  (ctx : Ctx) (v v1 v2 : Obj) :
  Validation.validated_object the_adapter the_schema mode preValidators
    errorFormatter schema_failure_message ctx = Ok v ->
  f v = Ok v1 ->
  g v1 = Ok v2 ->
  Validation.delivered_object the_adapter the_schema mode preValidators [f; g]
    errorFormatter as_validation_error schema_failure_message ctx = Ok v2
  /\ Validation.validate the_adapter the_schema mode preValidators [f; g]
       errorFormatter as_validation_error schema_failure_message handler ctx
     = handler v2.
Proof.
  intros Hv Hf Hg.
  assert (Hd : Validation.delivered_object the_adapter the_schema mode
                 preValidators [f; g] errorFormatter as_validation_error
                 schema_failure_message ctx = Ok v2).
  { unfold Validation.delivered_object. rewrite Hv. cbn.
    rewrite Hf. cbn. rewrite Hg. reflexivity. }
  split; [exact Hd|].
  unfold Validation.validate. now rewrite Hd.
Qed.

End PipelineFacts.

(* --------------------------------------------------------------------- *)
(** ** The properties on sample calls *)
(* --------------------------------------------------------------------- *)

Example simple_decode_empty_object :
  Auth.simple_decode Sample.urlsafe_b64decode Sample.json_loads_bytes "h.e30.s"
  = Ok (JObj []).
Proof. reflexivity. Qed.

Example simple_decode_one_segment :
  Auth.simple_decode Sample.urlsafe_b64decode Sample.json_loads_bytes "e30"
  = Raise (ExAuth (mkAuthError "Invalid token format" 401)).
Proof. reflexivity. Qed.

Example admin_token_passes_admin_gate :
  Sample.run_access (Some "Bearer h.eyJyb2xlIjogImFkbWluIn0.s") ["admin"]
    Sample.handler_ok
  = ([Auth.Called_func []
        [("user_payload", Payload (JObj [("role", JStr "admin")]))]],
     Ok Sample.ok_response).
Proof. reflexivity. Qed.

Example admin_token_fails_editor_gate :
  Sample.run_access (Some "Bearer h.eyJyb2xlIjogImFkbWluIn0.s") ["editor"]
    Sample.handler_ok
  = ([Auth.Called_handle_auth_error
        (mkAuthError "You do not have permission to access this resource" 403)],
     Ok {| response_json :=
             JObj [("detail",
                    JStr "You do not have permission to access this resource")];
           response_status := 403 |}).
Proof. reflexivity. Qed.

(** A token whose payload is a JSON array: [require_access] neither calls
    the handler nor converts an error, the [AttributeError] escapes. *)
Example array_payload_escapes_require_access :
  Sample.run_access (Some "Bearer h.WzFd.s") ["admin"] Sample.handler_ok
  = ([], Raise (ExPy "AttributeError")).
Proof. reflexivity. Qed.

(** C2, as stated, fails: a handler that raises [AuthError] itself has
    been invoked, and [handle_auth_error] is invoked on its error as
    well, so both outcomes happen in one call. *)
Lemma handler_raising_AuthError_gives_both_outcomes :
  Sample.run_token (Some "Bearer h.e30.s") Sample.handler_raising
  = ([Auth.Called_func [] [("user_payload", Payload (JObj []))];
      Auth.Called_handle_auth_error (mkAuthError "Token revoked" 401)],
     Ok (FlaskAdapter.handle_auth_error (mkAuthError "Token revoked" 401)))
  /\ Auth.func_calls
       (fst (Sample.run_token (Some "Bearer h.e30.s") Sample.handler_raising)) = 1
  /\ Auth.auth_error_calls
       (fst (Sample.run_token (Some "Bearer h.e30.s") Sample.handler_raising)) = 1
  /\ ~ Auth.exactly_one_outcome
         (fst (Sample.run_token (Some "Bearer h.e30.s") Sample.handler_raising)).
Proof.
  repeat split.
  intros [[_ H]|[H _]]; discriminate H.
Qed.

(** C3, as stated, fails: the role claim [""] is present and is a member
    of the allowed roles [[""]], yet the handler is not invoked and the
    call answers 403. *)
Lemma empty_role_is_refused_although_allowed :
  Auth.simple_decode Sample.urlsafe_b64decode Sample.json_loads_bytes
    "h.eyJyb2xlIjogIiJ9.s" = Ok (JObj [("role", JStr "")])
  /\ member "role" [("role", JStr "")] = Some (JStr "")
  /\ In "" [""]
  /\ Sample.run_access (Some "Bearer h.eyJyb2xlIjogIiJ9.s") [""] Sample.handler_ok
     = ([Auth.Called_handle_auth_error
           (mkAuthError "You do not have permission to access this resource" 403)],
        Ok (FlaskAdapter.handle_auth_error
              (mkAuthError "You do not have permission to access this resource" 403)))
  /\ Auth.func_calls
       (fst (Sample.run_access (Some "Bearer h.eyJyb2xlIjogIiJ9.s") [""]
               Sample.handler_ok)) = 0.
Proof.
  repeat split. now left.
Qed.

(** C4 on a request without the header. *)
Lemma missing_or_malformed_header_is_401_witness :
  FlaskAdapter.get_auth_header (Sample.flask_with_header None) = None
  /\ Sample.run_token None Sample.handler_ok
     = ([Auth.Called_handle_auth_error
           (mkAuthError "Authorization header is missing or invalid" 401)],
        Ok {| response_json :=
                JObj [("detail", JStr "Authorization header is missing or invalid")];
              response_status := 401 |})
  /\ Auth.func_calls
       (fst (Sample.run_access None ["admin"] Sample.handler_ok)) = 0.
Proof.
  pose proof (missing_or_malformed_header_is_401
                Sample.urlsafe_b64decode Sample.json_loads_bytes
                (adapter := Sample.adapter_with_header None)
                Sample.handler_ok ["admin"] [] [] (or_introl eq_refl))
    as [[Htoken _] [[_ Haccess] _]].
  split; [reflexivity|]. split; [exact Htoken | exact Haccess].
Defined.

Lemma sample_handler_ok_raises_no_AuthError :
  forall (a : list json) (k : kwargs json) (e : AuthError),
    Sample.handler_ok a k <> Raise (ExAuth e).
Proof. discriminate. Qed.

(** C2, amended, on a call with a token whose payload is the empty
    object. *)
Lemma exactly_one_outcome_witness :
  (forall (a : list json) (k : kwargs json) (e : AuthError),
      Sample.handler_ok a k <> Raise (ExAuth e))
  /\ Auth.exactly_one_outcome
       (fst (Sample.run_token (Some "Bearer h.e30.s") Sample.handler_ok))
  /\ Auth.exactly_one_outcome
       (fst (Sample.run_access (Some "Bearer h.e30.s") ["admin"] Sample.handler_ok)).
Proof.
  pose proof (exactly_one_outcome_when_handler_raises_no_AuthError
                Sample.urlsafe_b64decode Sample.json_loads_bytes
                (adapter := Sample.adapter_with_header (Some "Bearer h.e30.s"))
                Sample.handler_ok ["admin"] [] []
                sample_handler_ok_raises_no_AuthError)
    as [[_ Htoken] Haccess].
  split; [exact sample_handler_ok_raises_no_AuthError|].
  split; [exact Htoken|].
  apply Haccess.
  intros h token payload Hh Htok Hdec.
  inversion Hh; subst h. inversion Htok; subst token.
  inversion Hdec. now exists [].
Defined.

(** C3, amended, on an admin token at a handler gated to [admin]. *)
Lemma require_access_role_check_witness :
  FlaskAdapter.get_auth_header
    (Sample.flask_with_header (Some "Bearer h.eyJyb2xlIjogImFkbWluIn0.s"))
    = Some "Bearer h.eyJyb2xlIjogImFkbWluIn0.s"
  /\ startswith "Bearer h.eyJyb2xlIjogImFkbWluIn0.s" "Bearer " = true
  /\ nth_error (split " " "Bearer h.eyJyb2xlIjogImFkbWluIn0.s") 1
     = Some "h.eyJyb2xlIjogImFkbWluIn0.s"
  /\ Auth.simple_decode Sample.urlsafe_b64decode Sample.json_loads_bytes
       "h.eyJyb2xlIjogImFkbWluIn0.s" = Ok (JObj [("role", JStr "admin")])
  /\ (Auth.func_calls
        (fst (Sample.run_access (Some "Bearer h.eyJyb2xlIjogImFkbWluIn0.s")
                ["admin"] Sample.handler_ok)) = 1
      <-> Auth.role_permitted [("role", JStr "admin")] ["admin"]).
Proof.
  pose proof (require_access_role_check
                Sample.urlsafe_b64decode Sample.json_loads_bytes
                (adapter := Sample.adapter_with_header
                              (Some "Bearer h.eyJyb2xlIjogImFkbWluIn0.s"))
                Sample.handler_ok ["admin"] [] []
                (h := "Bearer h.eyJyb2xlIjogImFkbWluIn0.s")
                (token := "h.eyJyb2xlIjogImFkbWluIn0.s")
                (members := [("role", JStr "admin")])
                eq_refl eq_refl eq_refl eq_refl)
    as [Hiff _].
  repeat split; apply Hiff.
Defined.

(** C6 on two requests with a body that is no JSON. *)
Lemma extract_invalid_json_raises_witness :
  FlaskAdapter.extract_request_data
    {| FlaskAdapter.args := [("k", ["a"])];
       FlaskAdapter.form := [];
       FlaskAdapter.is_json := true;
       FlaskAdapter.get_json := Raise (ExPy "BadRequest");
       FlaskAdapter.headers_get := fun _ => None |}
  = Raise (ExValidation
             (mkGatewayValidationError "Invalid JSON format in request body" []))
  /\ DjangoAdapter.extract_request_data ascii_decode_utf8 Sample.json_loads
       {| DjangoAdapter.content_type := Some "application/json";
          DjangoAdapter.body := "{invalid";
          DjangoAdapter.POST := None;
          DjangoAdapter.GET := Some [("k", ["a"])] |}
     = Raise (ExValidation
                (mkGatewayValidationError "Invalid JSON in request body" [])).
Proof.
  destruct extract_invalid_json_raises as [Hflask Hdjango].
  split.
  - apply (Hflask _ (ExPy "BadRequest")); reflexivity.
  - apply (Hdjango _ _ _ "application/json"); [reflexivity | reflexivity |].
    right. exists "{invalid". split; reflexivity.
Defined.

(** C10 on a call whose second keyword argument is the model. *)
Lemma fastapi_extract_request_data_search_witness :
  FastAPIAdapter.extract_request_data
    [FastAPIAdapter.PyModel (FastAPIAdapter.mkBaseModel None None)]
    [("user_id", FastAPIAdapter.PyOther (JInt 123));
     ("user", FastAPIAdapter.PyModel
                (FastAPIAdapter.mkBaseModel
                   (Some [(JStr "username", JStr "alice")]) None))]
  = FastAPIAdapter.Tuple [(JStr "username", JStr "alice")]
      (FastAPIAdapter.mkBaseModel (Some [(JStr "username", JStr "alice")]) None)
  /\ FastAPIAdapter.extract_request_data
       [FastAPIAdapter.PyOther (JInt 123)]
       [("flag", FastAPIAdapter.PyOther (JBool true))]
     = FastAPIAdapter.Bare [].
Proof.
  split.
  - refine (proj1 (fastapi_extract_request_data_search
                     [FastAPIAdapter.PyModel (FastAPIAdapter.mkBaseModel None None)]
                     _)
              [("user_id", FastAPIAdapter.PyOther (JInt 123))] "user"
              (FastAPIAdapter.mkBaseModel
                 (Some [(JStr "username", JStr "alice")]) None)
              [] eq_refl _).
    repeat constructor.
  - apply (proj2 (proj2 (fastapi_extract_request_data_search _ _)));
      repeat constructor.
Defined.

(** C8 on the two post-validators of [test_fastapi_post_validators]: the
    handler receives [AUDITED_CHARLIE]. *)
Lemma post_validators_in_declared_order_witness :
  Validation.validated_object Sample.prevalidated_adapter Sample.accept_all
    Validation.STRICT [] Validation.default_formatter "Validation failed" "charlie"
  = Ok "charlie"
  /\ Sample.audit_user "charlie" = Ok "audited_charlie"
  /\ Sample.uppercase_username "audited_charlie" = Ok "AUDITED_CHARLIE"
  /\ Validation.validate Sample.prevalidated_adapter Sample.accept_all
       Validation.STRICT [] [Sample.audit_user; Sample.uppercase_username]
       Validation.default_formatter Sample.wrap_exn "Validation failed"
       Sample.echo_handler "charlie"
     = Ok "AUDITED_CHARLIE".
Proof.
  split; [reflexivity|]. split; [reflexivity|]. split; [reflexivity|].
  exact (proj2 (post_validators_in_declared_order
                  Sample.prevalidated_adapter Sample.accept_all Validation.STRICT []
                  Validation.default_formatter Sample.wrap_exn "Validation failed"
                  Sample.audit_user Sample.uppercase_username Sample.echo_handler
                  "charlie" eq_refl eq_refl eq_refl)).
Defined.

(* ===================================================================== *)
(** * Further properties of the code *)
(* ===================================================================== *)

(* --------------------------------------------------------------------- *)
(** ** What the Flask adapter extracts, name by name *)
(* --------------------------------------------------------------------- *)

Lemma has_key_cons (k0 k : string) (vs : list string) (md : MultiDict) :
  has_key ((k0, vs) :: md) k = (k =? k0) || has_key md k.
Proof. reflexivity. Qed.

(** Looking a name up after one of the two loops of the Flask adapter. *)
Lemma flask_merge_keys_lookup (src : MultiDict) (ks : list string) (d : dict)
  (k : string) :
  getitem
    (fold_left (fun d key => setitem d (JStr key) (flatten (getlist src key))) ks d)
    (JStr k)
  = if existsb (String.eqb k) ks then Some (flatten (getlist src k))
    else getitem d (JStr k).
Proof.
  revert d. induction ks as [|k0 ks IH]; intros d; simpl.
  - reflexivity.
  - rewrite IH.
    destruct (existsb (String.eqb k) ks).
    + now rewrite orb_true_r.
    + rewrite orb_false_r.
      destruct (String.eqb_spec k k0) as [->|Hne].
      * apply getitem_setitem_same.
      * apply getitem_setitem_other. congruence.
Qed.

Lemma flask_merge_source_lookup (src : MultiDict) (d : dict) (k : string) :
  getitem (FlaskAdapter.merge_source src d) (JStr k)
  = if has_key src k then Some (flatten (getlist src k)) else getitem d (JStr k).
Proof. apply flask_merge_keys_lookup. Qed.

(** The mapping after the query string and the form have been merged. *)
Lemma flask_query_form_lookup (req : FlaskAdapter.request) (k : string) :
  getitem
    (match FlaskAdapter.form req with
     | [] => match FlaskAdapter.args req with
             | [] => []
             | _ => FlaskAdapter.merge_source (FlaskAdapter.args req) []
             end
     | _ => FlaskAdapter.merge_source (FlaskAdapter.form req)
              (match FlaskAdapter.args req with
               | [] => []
               | _ => FlaskAdapter.merge_source (FlaskAdapter.args req) []
               end)
     end) (JStr k)
  = if has_key (FlaskAdapter.form req) k
    then Some (flatten (getlist (FlaskAdapter.form req) k))
    else if has_key (FlaskAdapter.args req) k
         then Some (flatten (getlist (FlaskAdapter.args req) k))
         else None.
Proof.
  assert (Hq : forall q : MultiDict,
             getitem (match q with
                      | [] => []
                      | _ => FlaskAdapter.merge_source q []
                      end) (JStr k)
             = if has_key q k then Some (flatten (getlist q k)) else None).
  { intros [|p q]; [reflexivity|]. now rewrite flask_merge_source_lookup. }
  destruct (FlaskAdapter.form req) as [|p f] eqn:Hf.
  - rewrite Hq. reflexivity.
  - rewrite flask_merge_source_lookup, Hq. reflexivity.
Qed.

(** X1.  A Flask request that is not JSON, or whose JSON body is false in
    an [if] (null, an empty object or list, zero, false, an empty
    string), extracts without error, and every name gets the form's
    value when the form has the name, else the query string's value when
    the query string has it, else nothing; a single value is a scalar,
    several are a list. *)
Theorem flask_lookup_without_json_body (req : FlaskAdapter.request) :
  (FlaskAdapter.is_json req = false \/
   exists j, FlaskAdapter.get_json req = Ok j /\ truthy j = false) ->
  exists data,
    FlaskAdapter.extract_request_data req = Ok data /\
    forall k,
      getitem data (JStr k) =
      if has_key (FlaskAdapter.form req) k
      then Some (flatten (getlist (FlaskAdapter.form req) k))
      else if has_key (FlaskAdapter.args req) k
           then Some (flatten (getlist (FlaskAdapter.args req) k))
           else None.
Proof.
  intros H. unfold FlaskAdapter.extract_request_data.
  destruct (FlaskAdapter.is_json req) eqn:Hj.
  - destruct H as [H|[j [Hget Hfalse]]]; [discriminate|].
    rewrite Hget. cbn [bind try_except]. rewrite Hfalse. cbn [try_except].
    eexists. split; [reflexivity|]. intros k. apply flask_query_form_lookup.
  - eexists. split; [reflexivity|]. intros k. apply flask_query_form_lookup.
Qed.

(** X2.  A Flask request whose JSON body is an object extracts without
    error, and every name gets the body's value when the body has the
    name (the last one, if the name is repeated), else the form's value,
    else the query string's value, else nothing. *)
Theorem flask_lookup_with_json_object
  (req : FlaskAdapter.request) (members : list (string * json)) :
  FlaskAdapter.is_json req = true ->
  FlaskAdapter.get_json req = Ok (JObj members) ->
  exists data,
    FlaskAdapter.extract_request_data req = Ok data /\
    forall k,
      getitem data (JStr k) =
      match member k members with
      | Some v => Some v
      | None =>
          if has_key (FlaskAdapter.form req) k
          then Some (flatten (getlist (FlaskAdapter.form req) k))
          else if has_key (FlaskAdapter.args req) k
               then Some (flatten (getlist (FlaskAdapter.args req) k))
               else None
      end.
Proof.
  intros Hj Hget. unfold FlaskAdapter.extract_request_data.
  rewrite Hj, Hget. cbn [bind try_except].
  destruct members as [|m members].
  - cbn. eexists. split; [reflexivity|]. intros k.
    apply flask_query_form_lookup.
  - cbn [truthy update try_except].
    eexists. split; [reflexivity|]. intros k.
    rewrite getitem_update_members.
    destruct (member k (m :: members)); [reflexivity|].
    apply flask_query_form_lookup.
Qed.

(** X3.  The Flask adapter's extraction raises nothing but the
    [GatewayValidationError] with message [Invalid JSON format in request
    body] and no details, and only on a request that declares JSON. *)
Theorem flask_extract_raises_only_validation_error
  (req : FlaskAdapter.request) (e : exn) :
  FlaskAdapter.extract_request_data req = Raise e ->
  FlaskAdapter.is_json req = true /\
  e = ExValidation
        (mkGatewayValidationError "Invalid JSON format in request body" []).
Proof.
  unfold FlaskAdapter.extract_request_data.
  destruct (FlaskAdapter.is_json req); [|discriminate].
  intros H. split; [reflexivity|].
  unfold try_except in H.
  match type of H with
  | match ?b with _ => _ end = _ => destruct b; [discriminate|]
  end.
  now inversion H.
Qed.

(** X4.  A Flask request whose JSON body parses to a non-zero number, to
    [true] or to a non-empty string is refused with the same
    [GatewayValidationError] as an unparsable body: [data.update] cannot
    take such a value, and the [except Exception] clause catches its
    error too. *)
Theorem flask_scalar_json_body_is_refused (req : FlaskAdapter.request) (j : json) :
  FlaskAdapter.is_json req = true ->
  FlaskAdapter.get_json req = Ok j ->
  ((exists n, j = JInt n /\ n <> 0%Z) \/ j = JBool true \/
   (exists s, j = JStr s /\ s <> "")) ->
  FlaskAdapter.extract_request_data req =
  Raise (ExValidation
           (mkGatewayValidationError "Invalid JSON format in request body" [])).
Proof.
  intros Hj Hget Hkind. unfold FlaskAdapter.extract_request_data.
  rewrite Hj, Hget. cbn [bind try_except].
  destruct Hkind as [[n [-> Hn]]|[->|[s [-> Hs]]]].
  - cbn. apply Z.eqb_neq in Hn. now rewrite Hn.
  - reflexivity.
  - destruct s as [|c s]; [congruence|]. reflexivity.
Qed.

(* --------------------------------------------------------------------- *)
(** ** What the Django adapter extracts, name by name *)
(* --------------------------------------------------------------------- *)

Lemma has_key_false (md : MultiDict) (k : string) :
  has_key md k = false <-> ~ In k (map fst md).
Proof.
  unfold has_key. split.
  - intros H Hin.
    assert (existsb (String.eqb k) (map fst md) = true).
    { apply existsb_exists. exists k. split; [assumption|apply String.eqb_refl]. }
    congruence.
  - intros Hnot. destruct (existsb (String.eqb k) (map fst md)) eqn:E; [|reflexivity].
    apply existsb_exists in E. destruct E as [x [Hin Hx]].
    apply String.eqb_eq in Hx. subst x. contradiction.
Qed.

(** Looking a name up after one of the two loops of the Django adapter,
    over a [QueryDict] (whose keys are distinct). *)
Lemma django_merge_lists_lookup (md : MultiDict) (d : dict) (k : string) :
  NoDup (map fst md) ->
  getitem (DjangoAdapter.merge_lists md d) (JStr k)
  = if has_key md k then Some (flatten (getlist md k)) else getitem d (JStr k).
Proof.
  intros Hnd.
  destruct (has_key md k) eqn:Hk.
  - unfold has_key in Hk. apply existsb_exists in Hk.
    destruct Hk as [x [Hin Hx]]. apply String.eqb_eq in Hx. subst x.
    apply in_map_iff in Hin. destruct Hin as [[k' vs] [Hfst Hin]].
    simpl in Hfst. subst k'.
    rewrite (django_merge_lists_get _ d _ _ Hnd Hin).
    f_equal. f_equal.
    clear d. induction md as [|[k0 vs0] md IH]; [contradiction|].
    simpl in *. inversion Hnd as [|? ? Hnot Hnd']; subst.
    destruct Hin as [Heq|Hin].
    + inversion Heq; subst. now rewrite String.eqb_refl.
    + destruct (String.eqb_spec k0 k) as [->|Hne].
      * exfalso. apply Hnot. apply in_map_iff. now exists (k, vs).
      * now apply IH.
  - apply django_merge_lists_other. now apply has_key_false.
Qed.

Lemma django_merge_attr_lookup (source : option MultiDict) (d : dict) (k : string) :
  (forall md, source = Some md -> NoDup (map fst md)) ->
  getitem (DjangoAdapter.merge_attr source d) (JStr k)
  = match source with
    | Some md =>
        if has_key md k then Some (flatten (getlist md k)) else getitem d (JStr k)
    | None => getitem d (JStr k)
    end.
Proof.
  intros Hnd. destruct source as [[|p md]|]; try reflexivity.
  apply django_merge_lists_lookup. now apply Hnd.
Qed.

Section DjangoFacts.

Variable decode_utf8 : bytes -> option string.
Variable json_loads : string -> option json.

Local Abbreviation extract_request_data :=
  (DjangoAdapter.extract_request_data decode_utf8 json_loads).

(** The two loops over the form and the query string, on top of what the
    JSON step left. *)
Lemma django_form_query_lookup (req : DjangoAdapter.request) (d : dict) (k : string) :
  (forall md, DjangoAdapter.GET req = Some md -> NoDup (map fst md)) ->
  (forall md, DjangoAdapter.POST req = Some md -> NoDup (map fst md)) ->
  getitem
    (DjangoAdapter.merge_attr (DjangoAdapter.GET req)
       (DjangoAdapter.merge_attr (DjangoAdapter.POST req) d)) (JStr k)
  = or_else (source_value (DjangoAdapter.GET req) k)
      (or_else (source_value (DjangoAdapter.POST req) k) (getitem d (JStr k))).
Proof.
  intros Hget Hpost.
  rewrite django_merge_attr_lookup by assumption.
  rewrite django_merge_attr_lookup by assumption.
  unfold source_value, or_else.
  destruct (DjangoAdapter.GET req) as [g|]; [destruct (has_key g k); [reflexivity|]|];
    (destruct (DjangoAdapter.POST req) as [p|]; [destruct (has_key p k)|]; reflexivity).
Qed.

(** X5.  A Django request whose JSON body is an object extracts without
    error, and the precedence is the reverse of the Flask adapter's:
    every name gets the query string's value when the query string has
    the name, else the form's value, else the body's value, else
    nothing. *)
Theorem django_lookup_with_json_object
  (req : DjangoAdapter.request) (ct text : string) (members : list (string * json)) :
  DjangoAdapter.content_type req = Some ct ->
  contains "application/json" ct = true ->
  decode_utf8 (DjangoAdapter.body req) = Some text ->
  json_loads text = Some (JObj members) ->
  (forall md, DjangoAdapter.GET req = Some md -> NoDup (map fst md)) ->
  (forall md, DjangoAdapter.POST req = Some md -> NoDup (map fst md)) ->
  exists data,
    extract_request_data req = Ok data /\
    forall k,
      getitem data (JStr k) =
      or_else (source_value (DjangoAdapter.GET req) k)
        (or_else (source_value (DjangoAdapter.POST req) k) (member k members)).
Proof.
  intros Hct Hin Hdec Hload Hget Hpost.
  unfold DjangoAdapter.extract_request_data.
  rewrite Hct, Hin, Hdec. cbn [or_raise bind DjangoAdapter.try_except_only].
  rewrite Hload. cbn [or_raise bind].
  destruct members as [|m members].
  - cbn. eexists. split; [reflexivity|]. intros k.
    now rewrite django_form_query_lookup by assumption.
  - cbn [truthy update DjangoAdapter.try_except_only bind].
    eexists. split; [reflexivity|]. intros k.
    rewrite django_form_query_lookup by assumption.
    rewrite getitem_update_members.
    now destruct (member k (m :: members)).
Qed.

(** X6.  A Django request that does not declare JSON never makes the
    extraction raise, whatever its body; every name gets the query
    string's value when the query string has it, else the form's value,
    else nothing. *)
Theorem django_lookup_without_json (req : DjangoAdapter.request) :
  (DjangoAdapter.content_type req = None \/
   exists ct, DjangoAdapter.content_type req = Some ct /\
              contains "application/json" ct = false) ->
  (forall md, DjangoAdapter.GET req = Some md -> NoDup (map fst md)) ->
  (forall md, DjangoAdapter.POST req = Some md -> NoDup (map fst md)) ->
  exists data,
    extract_request_data req = Ok data /\
    forall k,
      getitem data (JStr k) =
      or_else (source_value (DjangoAdapter.GET req) k)
        (source_value (DjangoAdapter.POST req) k).
Proof.
  intros Hct Hget Hpost.
  unfold DjangoAdapter.extract_request_data.
  assert (Hstep : forall k0 : dict -> result dict,
             bind (match DjangoAdapter.content_type req with
                   | Some ct =>
                       if contains "application/json" ct
                       then DjangoAdapter.try_except_only
                              ["JSONDecodeError"; "UnicodeDecodeError"]
                              (text <- or_raise "UnicodeDecodeError"
                                         (decode_utf8 (DjangoAdapter.body req)) ;;
                               json_data <- or_raise "JSONDecodeError" (json_loads text) ;;
                               if truthy json_data then update [] json_data else Ok [])
                              (Raise (ExValidation
                                        (mkGatewayValidationError
                                           "Invalid JSON in request body" [])))
                       else Ok []
                   | None => Ok []
                   end) k0 = k0 []).
  { intros k0. destruct Hct as [->|[ct [-> ->]]]; reflexivity. }
  rewrite Hstep.
  eexists. split; [reflexivity|]. intros k.
  rewrite django_form_query_lookup by assumption.
  unfold or_else.
  destruct (source_value (DjangoAdapter.GET req) k); [reflexivity|].
  now destruct (source_value (DjangoAdapter.POST req) k).
Qed.

Lemma update_pairs_raises (pairs : list json) (d : dict) (e : exn) :
  update_pairs d pairs = Raise e ->
  e = ExPy "TypeError" \/ e = ExPy "ValueError".
Proof.
  revert d. induction pairs as [|p pairs IH]; intros d H; simpl in H.
  - discriminate.
  - destruct (as_sequence p) as [[|k [|v [|x xs]]]|].
    + right. now inversion H.
    + right. now inversion H.
    + destruct (hashable k).
      * now apply IH in H.
      * left. now inversion H.
    + right. now inversion H.
    + left. now inversion H.
Qed.

Lemma update_raises (d : dict) (other : json) (e : exn) :
  update d other = Raise e ->
  e = ExPy "TypeError" \/ e = ExPy "ValueError".
Proof.
  destruct other; simpl; intros H;
    try (left; now inversion H);
    try (now apply update_pairs_raises in H);
    discriminate.
Qed.

(** X7.  The Django adapter's extraction raises only on a request that
    declares JSON, and what it raises is the [GatewayValidationError]
    with message [Invalid JSON in request body] and no details, or the
    [TypeError] or [ValueError] of [data.update] on a parsed body that is
    no object, which the [except] clause lets through. *)
Theorem django_extract_raises (req : DjangoAdapter.request) (e : exn) :
  extract_request_data req = Raise e ->
  (exists ct, DjangoAdapter.content_type req = Some ct /\
              contains "application/json" ct = true) /\
  (e = ExValidation (mkGatewayValidationError "Invalid JSON in request body" [])
   \/ e = ExPy "TypeError" \/ e = ExPy "ValueError").
Proof.
  unfold DjangoAdapter.extract_request_data.
  destruct (DjangoAdapter.content_type req) as [ct|]; [|discriminate].
  destruct (contains "application/json" ct) eqn:Hin; [|discriminate].
  intros H. split; [now exists ct|].
  destruct (decode_utf8 (DjangoAdapter.body req)) as [text|]; cbn in H.
  - destruct (json_loads text) as [j|]; cbn in H.
    + destruct (truthy j); [|discriminate].
      destruct (update [] j) as [d|e'] eqn:Hup; cbn in H; [discriminate|].
      destruct (update_raises _ _ Hup) as [->| ->]; cbn in H; inversion H; auto.
    + left. now inversion H.
  - left. now inversion H.
Qed.

(** X8.  A Django request whose JSON body parses to a non-zero number or
    to [true] makes the extraction raise [TypeError], and one whose body
    parses to a non-empty string [ValueError]: neither is a
    [GatewayValidationError], so no validation response is produced for
    it (the Flask adapter refuses the same bodies with its validation
    error). *)
Theorem django_scalar_json_body_escapes
  (req : DjangoAdapter.request) (ct text : string) (j : json) :
  DjangoAdapter.content_type req = Some ct ->
  contains "application/json" ct = true ->
  decode_utf8 (DjangoAdapter.body req) = Some text ->
  json_loads text = Some j ->
  (((exists n, j = JInt n /\ n <> 0%Z) \/ j = JBool true) ->
   extract_request_data req = Raise (ExPy "TypeError"))
  /\ ((exists s, j = JStr s /\ s <> "") ->
      extract_request_data req = Raise (ExPy "ValueError")).
Proof.
  intros Hct Hin Hdec Hload.
  unfold DjangoAdapter.extract_request_data.
  rewrite Hct, Hin, Hdec. cbn [or_raise bind]. rewrite Hload. cbn [or_raise bind].
  split.
  - intros [[n [-> Hn]]| ->].
    + cbn. apply Z.eqb_neq in Hn. now rewrite Hn.
    + reflexivity.
  - intros [s [-> Hs]]. destruct s as [|c s]; [congruence|]. reflexivity.
Qed.

End DjangoFacts.

(* --------------------------------------------------------------------- *)
(** ** The generic and the FastAPI adapter *)
(* --------------------------------------------------------------------- *)

(** X9.  The generic adapter's extraction raises exactly when the first
    positional argument is an object that is neither [None] nor a [dict]
    and has none of [model_dump], [dict] and [__dict__]; what it raises
    is the [GatewayValidationError] with message [Unsupported request
    data type] and no details.  Without positional arguments, or with
    [None] first, it returns the empty mapping. *)
Theorem generic_extract_unsupported
  (args : list GenericAdapter.request_data)
  (kw : list (string * GenericAdapter.request_data)) :
  (forall e,
      GenericAdapter.extract_request_data args kw = Raise e <->
      (exists rest, args = GenericAdapter.RObject
                             (GenericAdapter.mkInstance None None None) :: rest) /\
      e = ExValidation
            (mkGatewayValidationError "Unsupported request data type" []))
  /\ (forall rest, args = [] \/ args = GenericAdapter.RNone :: rest ->
                   GenericAdapter.extract_request_data args kw = Ok []).
Proof.
  split.
  - intros e. unfold GenericAdapter.extract_request_data. split.
    + destruct args as [|[|d|[md dv dd]] rest]; try discriminate.
      cbn. destruct md; [discriminate|]. destruct dv; [discriminate|].
      destruct dd; [discriminate|].
      intros H. inversion H. split; [now exists rest|reflexivity].
    + intros [[rest ->] ->]. reflexivity.
  - intros rest [->| ->]; reflexivity.
Qed.

Lemma first_model_sound (values : list FastAPIAdapter.pyobj) :
  match FastAPIAdapter.first_model values with
  | Some m => exists pre post,
      values = pre ++ FastAPIAdapter.PyModel m :: post /\ FastAPIAdapter.no_model pre
  | None => FastAPIAdapter.no_model values
  end.
Proof.
  induction values as [|[m|j] values IH]; simpl.
  - constructor.
  - exists [], values. split; [reflexivity|constructor].
  - destruct (FastAPIAdapter.first_model values) as [m|].
    + destruct IH as [pre [post [-> Hpre]]].
      exists (FastAPIAdapter.PyOther j :: pre), post.
      split; [reflexivity|]. now constructor.
    + now constructor.
Qed.

(** X10.  Whatever the FastAPI adapter's extraction returns is backed by
    the arguments: a pair holds a model that really is the first model
    among the keyword arguments, or, when these hold none, among the
    positional ones, with exactly its own field mapping; the bare
    mapping is returned only when no argument is a model, and it is
    empty. *)
Theorem fastapi_extract_sound
  (args : list FastAPIAdapter.pyobj) (kw : list (string * FastAPIAdapter.pyobj)) :
  match FastAPIAdapter.extract_request_data args kw with
  | FastAPIAdapter.Tuple data value =>
      data = FastAPIAdapter._model_to_dict value /\
      ((exists pre post,
           map snd kw = pre ++ FastAPIAdapter.PyModel value :: post /\
           FastAPIAdapter.no_model pre)
       \/ (FastAPIAdapter.no_model (map snd kw) /\
           exists pre post,
             args = pre ++ FastAPIAdapter.PyModel value :: post /\
             FastAPIAdapter.no_model pre))
  | FastAPIAdapter.Bare data =>
      data = [] /\ FastAPIAdapter.no_model (map snd kw) /\ FastAPIAdapter.no_model args
  end.
Proof.
  unfold FastAPIAdapter.extract_request_data.
  pose proof (first_model_sound (map snd kw)) as Hkw.
  pose proof (first_model_sound args) as Hargs.
  destruct (FastAPIAdapter.first_model (map snd kw)) as [m|].
  - split; [reflexivity|]. now left.
  - destruct (FastAPIAdapter.first_model args) as [m|].
    + split; [reflexivity|]. right. now split.
    + repeat split; assumption.
Qed.

(* --------------------------------------------------------------------- *)
(** ** Padding and the segments of a token *)
(* --------------------------------------------------------------------- *)

Lemma length_repeat_char (c : ascii) (n : nat) :
  String.length (repeat_char c n) = n.
Proof. induction n; simpl; congruence. Qed.

Lemma length_append (s t : string) :
  String.length (s ++ t) = String.length s + String.length t.
Proof. induction s; simpl; congruence. Qed.

(** X11.  Padding brings the length of a segment to the next multiple of
    four by appending fewer than four characters, so a segment whose
    length already is a multiple of four is left as it is. *)
Theorem pad_length (payload_b64 : string) :
  String.length (Auth.pad payload_b64) mod 4 = 0
  /\ String.length payload_b64 <= String.length (Auth.pad payload_b64)
       < String.length payload_b64 + 4
  /\ (String.length payload_b64 mod 4 = 0 -> Auth.pad payload_b64 = payload_b64).
Proof.
  unfold Auth.pad.
  set (n := String.length payload_b64).
  set (r := Z.to_nat ((- Z.of_nat n) mod 4)).
  assert (Hr : (Z.of_nat r = (- Z.of_nat n) mod 4)%Z).
  { unfold r. apply Z2Nat.id. apply Z.mod_pos_bound. lia. }
  pose proof (Z.mod_pos_bound (- Z.of_nat n) 4 ltac:(lia)) as Hb.
  pose proof (Z.div_mod (- Z.of_nat n) 4 ltac:(lia)) as Hdm.
  rewrite length_append, length_repeat_char. fold n.
  assert (Hmul : (Z.of_nat (n + r) = 4 * (- ((- Z.of_nat n) / 4)))%Z) by lia.
  repeat split.
  - apply Nat2Z.inj. rewrite Nat2Z.inj_mod, Hmul.
    replace (4 * - (- Z.of_nat n / 4))%Z with ((- (- Z.of_nat n / 4)) * 4)%Z by ring.
    now rewrite Z.mod_mul by lia.
  - lia.
  - lia.
  - intros Hn.
    assert (r = 0).
    { apply Nat2Z.inj. rewrite Hr.
      pose proof (Nat.div_mod_eq n 4) as Hq.
      replace (- Z.of_nat n)%Z with ((- Z.of_nat (n / 4)) * 4)%Z by lia.
      now rewrite Z.mod_mul by lia. }
    rewrite H. simpl. clear.
    induction payload_b64; simpl; congruence.
Qed.

Lemma split_no_sep (sep : ascii) (s : string) :
  has_char sep s = false -> split sep s = [s].
Proof.
  induction s as [|c s IH]; simpl; [reflexivity|].
  intros H. apply orb_false_iff in H. destruct H as [Hc Hs].
  rewrite Hc, (IH Hs). reflexivity.
Qed.

Lemma split_app_sep (sep : ascii) (s rest : string) :
  has_char sep s = false ->
  split sep (s ++ String sep rest) = s :: split sep rest.
Proof.
  induction s as [|c s IH]; simpl.
  - intros _. now rewrite Ascii.eqb_refl.
  - intros H. apply orb_false_iff in H. destruct H as [Hc Hs].
    rewrite Hc, (IH Hs). reflexivity.
Qed.

Section SegmentFacts.

Variable urlsafe_b64decode : string -> option bytes.
Variable json_loads : bytes -> option json.

Local Abbreviation simple_decode :=
  (Auth.simple_decode urlsafe_b64decode json_loads).

(** X12.  For a token [header.payload.signature] the result of
    [simple_decode] is decided by [payload] alone: it is the JSON value
    of the padded and decoded payload, or the [Invalid token format]
    error; the header and the signature are not read, and a token
    [header.payload] without any signature gives the same result. *)
Theorem simple_decode_three_segments (header payload signature : string) :
  has_char "." header = false ->
  has_char "." payload = false ->
  simple_decode (header ++ "." ++ payload ++ "." ++ signature)
  = match urlsafe_b64decode (Auth.pad payload) with
    | Some raw =>
        match json_loads raw with
        | Some j => Ok j
        | None => Raise (ExAuth (mkAuthError "Invalid token format" 401))
        end
    | None => Raise (ExAuth (mkAuthError "Invalid token format" 401))
    end
  /\ simple_decode (header ++ "." ++ payload)
     = simple_decode (header ++ "." ++ payload ++ "." ++ signature).
Proof.
  intros Hh Hp.
  assert (H3 : nth_error (split "." (header ++ "." ++ payload ++ "." ++ signature)) 1
               = Some payload).
  { change (header ++ "." ++ payload ++ "." ++ signature)%string
      with (header ++ String "." (payload ++ String "." signature))%string.
    rewrite split_app_sep by assumption.
    rewrite split_app_sep by assumption. reflexivity. }
  assert (H2 : nth_error (split "." (header ++ "." ++ payload)) 1 = Some payload).
  { change (header ++ "." ++ payload)%string
      with (header ++ String "." payload)%string.
    rewrite split_app_sep by assumption.
    rewrite split_no_sep by assumption. reflexivity. }
  unfold Auth.simple_decode, index_list. rewrite H3, H2. cbn.
  split; [|reflexivity].
  destruct (urlsafe_b64decode (Auth.pad payload)) as [raw|]; cbn; [|reflexivity].
  destruct (json_loads raw); reflexivity.
Qed.

End SegmentFacts.

(* --------------------------------------------------------------------- *)
(** ** The two decorators on every call *)
(* --------------------------------------------------------------------- *)

Lemma missing_or_invalid_false (auth_header : option string) :
  Auth.missing_or_invalid auth_header = false <->
  exists h, auth_header = Some h /\ startswith h "Bearer " = true.
Proof.
  split.
  - destruct auth_header as [h|]; [|discriminate].
    unfold Auth.missing_or_invalid. intros H.
    apply orb_false_iff in H. destruct H as [_ H].
    apply negb_false_iff in H. now exists h.
  - intros [h [-> H]]. now apply bearer_not_missing.
Qed.

Lemma func_calls_guarded_call (Arg Resp : Type) (adapter : FrameworkAdapter Arg Resp)
  (func : list Arg -> kwargs Arg -> result Resp) (args : list Arg) (kw : kwargs Arg) :
  Auth.func_calls (fst (Auth.guarded_call func args kw)) = 1.
Proof.
  destruct (guarded_call_cases func args kw) as [[e [_ ->]]|[_ ->]]; reflexivity.
Qed.

Section DecoratorFacts.

Variable urlsafe_b64decode : string -> option bytes.
Variable json_loads : bytes -> option json.
Variables Arg Resp : Type.
Context {adapter : FrameworkAdapter Arg Resp}.
Variable func : list Arg -> kwargs Arg -> result Resp.

Local Abbreviation simple_decode :=
  (Auth.simple_decode urlsafe_b64decode json_loads).
Local Abbreviation require_token :=
  (Auth.require_token urlsafe_b64decode json_loads func).
Local Abbreviation require_access :=
  (Auth.require_access urlsafe_b64decode json_loads func).

(** Every run of [require_token] takes one of three paths. *)
Lemma require_token_paths (args : list Arg) (kw : kwargs Arg) :
  (Auth.missing_or_invalid (get_auth_header args kw) = true /\
   require_token args kw =
   Auth.call_handle_auth_error
     (AuthError_default "Authorization header is missing or invalid"))
  \/ (exists h token e,
         get_auth_header args kw = Some h /\ startswith h "Bearer " = true /\
         nth_error (split " " h) 1 = Some token /\
         simple_decode token = Raise e /\
         require_token args kw =
         Auth.call_handle_auth_error (mkAuthError "Invalid token format" 401))
  \/ (exists h token payload,
         get_auth_header args kw = Some h /\ startswith h "Bearer " = true /\
         nth_error (split " " h) 1 = Some token /\
         simple_decode token = Ok payload /\
         require_token args kw =
         Auth.guarded_call func args (Auth.with_user_payload kw payload)).
Proof.
  destruct (Auth.missing_or_invalid (get_auth_header args kw)) eqn:Hmi.
  - left. split; [reflexivity|]. now apply require_token_header_rejected.
  - right.
    destruct (proj1 (missing_or_invalid_false _) Hmi) as [h [Hh Hpre]].
    rewrite Hh in Hmi.
    destruct (bearer_has_token h Hpre) as [token Htok].
    destruct (simple_decode token) as [payload|e] eqn:Hdec.
    + right. exists h, token, payload. repeat split; try assumption.
      now apply (require_token_decoded _ _ _ _ _ Hh Hmi Htok).
    + left. exists h, token, e. repeat split; try assumption.
      now apply (require_token_bad_token _ _ _ _ _ Hh Hmi Htok Hdec).
Qed.

(** Every run of [require_access] takes one of five paths. *)
Lemma require_access_paths (roles : list string) (args : list Arg) (kw : kwargs Arg) :
  (Auth.missing_or_invalid (get_auth_header args kw) = true /\
   require_access roles args kw =
   Auth.call_handle_auth_error
     (AuthError_default "Authorization header is missing or invalid"))
  \/ (exists h token e,
         get_auth_header args kw = Some h /\ startswith h "Bearer " = true /\
         nth_error (split " " h) 1 = Some token /\
         simple_decode token = Raise e /\
         require_access roles args kw =
         Auth.call_handle_auth_error (mkAuthError "Invalid token format" 401))
  \/ (exists h token payload,
         get_auth_header args kw = Some h /\ startswith h "Bearer " = true /\
         nth_error (split " " h) 1 = Some token /\
         simple_decode token = Ok payload /\
         (forall members, payload <> JObj members) /\
         require_access roles args kw = ([], Raise (ExPy "AttributeError")))
  \/ (exists h token members,
         get_auth_header args kw = Some h /\ startswith h "Bearer " = true /\
         nth_error (split " " h) 1 = Some token /\
         simple_decode token = Ok (JObj members) /\
         ~ Auth.role_permitted members roles /\
         require_access roles args kw =
         Auth.call_handle_auth_error
           (mkAuthError "You do not have permission to access this resource" 403))
  \/ (exists h token members,
         get_auth_header args kw = Some h /\ startswith h "Bearer " = true /\
         nth_error (split " " h) 1 = Some token /\
         simple_decode token = Ok (JObj members) /\
         Auth.role_permitted members roles /\
         require_access roles args kw =
         Auth.guarded_call func args (Auth.with_user_payload kw (JObj members))).
Proof.
  destruct (Auth.missing_or_invalid (get_auth_header args kw)) eqn:Hmi.
  - left. split; [reflexivity|]. now apply require_access_header_rejected.
  - right.
    destruct (proj1 (missing_or_invalid_false _) Hmi) as [h [Hh Hpre]].
    rewrite Hh in Hmi.
    destruct (bearer_has_token h Hpre) as [token Htok].
    destruct (simple_decode token) as [payload|e] eqn:Hdec.
    + right.
      assert (Hobj : (exists members, payload = JObj members) \/
                     (forall members, payload <> JObj members)).
      { destruct payload; try (right; discriminate). left. now exists members. }
      destruct Hobj as [[members ->]|Hno].
      * right.
        pose proof (require_access_decoded _ _ func roles _ _ Hh Hmi Htok Hdec) as Hrun.
        pose proof (role_permitted_iff members roles) as Hiff.
        destruct (Auth.role_allowed _ roles).
        -- right. exists h, token, members. repeat split; try assumption.
           now apply Hiff.
        -- left. exists h, token, members. repeat split; try assumption.
           intros Hp. apply Hiff in Hp. discriminate.
      * left. exists h, token, payload. repeat split; try assumption.
        now apply (require_access_payload_not_object _ _ _ roles _ _ Hh Hmi Htok Hdec).
    + left. exists h, token, e. repeat split; try assumption.
      now apply (require_access_bad_token _ _ _ roles _ _ Hh Hmi Htok Hdec).
Qed.

End DecoratorFacts.

Lemma kwargs_get_same (Arg : Type) (kw : kwargs Arg) (name : string) (v : kwarg Arg) :
  Dict.get String.eqb (Dict.setitem String.eqb kw name v) name = Some v.
Proof. apply get_setitem_same. apply String.eqb_refl. Qed.

Lemma kwargs_get_other (Arg : Type) (kw : kwargs Arg) (name other : string)
  (v : kwarg Arg) :
  other <> name ->
  Dict.get String.eqb (Dict.setitem String.eqb kw name v) other
  = Dict.get String.eqb kw other.
Proof.
  intros Hne. apply get_setitem_other.
  - intros k' Hk'. apply String.eqb_eq in Hk'. subst k'.
    apply String.eqb_neq. congruence.
  - apply String.eqb_neq. congruence.
Qed.

Lemma simple_decode_no_dot
  (urlsafe_b64decode : string -> option bytes) (json_loads : bytes -> option json)
  (token : string) :
  has_char "." token = false ->
  Auth.simple_decode urlsafe_b64decode json_loads token
  = Raise (ExAuth (mkAuthError "Invalid token format" 401)).
Proof.
  intros H. unfold Auth.simple_decode, index_list.
  rewrite split_no_sep by assumption. reflexivity.
Qed.

Lemma simple_decode_second_segment
  (urlsafe_b64decode : string -> option bytes) (json_loads : bytes -> option json)
  (t1 t2 : string) :
  nth_error (split "." t1) 1 = nth_error (split "." t2) 1 ->
  Auth.simple_decode urlsafe_b64decode json_loads t1
  = Auth.simple_decode urlsafe_b64decode json_loads t2.
Proof.
  intros H. unfold Auth.simple_decode, index_list. now rewrite H.
Qed.

Section DecoratorProperties.

Variable urlsafe_b64decode : string -> option bytes.
Variable json_loads : bytes -> option json.
Variables Arg Resp : Type.
Context {adapter : FrameworkAdapter Arg Resp}.
Variable func : list Arg -> kwargs Arg -> result Resp.

Local Abbreviation simple_decode :=
  (Auth.simple_decode urlsafe_b64decode json_loads).
Local Abbreviation require_token :=
  (Auth.require_token urlsafe_b64decode json_loads func).
Local Abbreviation require_access :=
  (Auth.require_access urlsafe_b64decode json_loads func).

(** X13.  On every call, [require_token] invokes the handler exactly when
    the header starts with [Bearer ] and the piece after the first space
    decodes; it looks at nothing else (no expiry, no role, no signature),
    and it never invokes the handler twice. *)
Theorem require_token_invokes_handler_iff (args : list Arg) (kw : kwargs Arg) :
  (Auth.func_calls (fst (require_token args kw)) = 1 <->
   exists h token payload,
     get_auth_header args kw = Some h /\ startswith h "Bearer " = true /\
     nth_error (split " " h) 1 = Some token /\
     simple_decode token = Ok payload)
  /\ (Auth.func_calls (fst (require_token args kw)) = 0 \/
      Auth.func_calls (fst (require_token args kw)) = 1).
Proof.
  destruct (require_token_paths urlsafe_b64decode json_loads func args kw)
    as [[Hmi ->]|[[h [token [e [Hh [Hpre [Htok [Hdec ->]]]]]]]
                 |[h [token [payload [Hh [Hpre [Htok [Hdec ->]]]]]]]]].
  - split; [|now left]. split; [discriminate|].
    intros [h [token [payload [Hh [Hpre _]]]]].
    rewrite Hh, (bearer_not_missing h Hpre) in Hmi. discriminate.
  - split; [|now left]. split; [discriminate|].
    intros [h' [token' [payload [Hh' [_ [Htok' Hdec']]]]]].
    congruence.
  - rewrite func_calls_guarded_call. split; [|now right].
    split; [|reflexivity]. intros _. now exists h, token, payload.
Qed.

(** X14.  On every call, [require_access] invokes the handler exactly
    when the header starts with [Bearer ], the token decodes to an
    object and its role claim is a non-empty string among the allowed
    roles; with an empty list of allowed roles the handler is never
    invoked. *)
Theorem require_access_invokes_handler_iff
  (roles : list string) (args : list Arg) (kw : kwargs Arg) :
  (Auth.func_calls (fst (require_access roles args kw)) = 1 <->
   exists h token members,
     get_auth_header args kw = Some h /\ startswith h "Bearer " = true /\
     nth_error (split " " h) 1 = Some token /\
     simple_decode token = Ok (JObj members) /\
     Auth.role_permitted members roles)
  /\ (roles = [] -> Auth.func_calls (fst (require_access roles args kw)) = 0).
Proof.
  assert (Hiff :
    Auth.func_calls (fst (require_access roles args kw)) = 1 <->
    exists h token members,
      get_auth_header args kw = Some h /\ startswith h "Bearer " = true /\
      nth_error (split " " h) 1 = Some token /\
      simple_decode token = Ok (JObj members) /\
      Auth.role_permitted members roles).
  { destruct (require_access_paths urlsafe_b64decode json_loads func roles args kw)
      as [[Hmi ->]
         |[[h [token [e [Hh [Hpre [Htok [Hdec ->]]]]]]]
          |[[h [token [payload [Hh [Hpre [Htok [Hdec [Hno ->]]]]]]]]
           |[[h [token [members [Hh [Hpre [Htok [Hdec [Hnp ->]]]]]]]]
            |[h [token [members [Hh [Hpre [Htok [Hdec [Hp ->]]]]]]]]]]]].
    - split; [discriminate|].
      intros [h [token [members [Hh [Hpre _]]]]].
      rewrite Hh, (bearer_not_missing h Hpre) in Hmi. discriminate.
    - split; [discriminate|].
      intros [h' [token' [members [Hh' [_ [Htok' [Hdec' _]]]]]]]. congruence.
    - split; [discriminate|].
      intros [h' [token' [members [Hh' [_ [Htok' [Hdec' _]]]]]]].
      exfalso. apply (Hno members). congruence.
    - split; [discriminate|].
      intros [h' [token' [members' [Hh' [_ [Htok' [Hdec' Hp']]]]]]].
      exfalso. apply Hnp.
      assert (members' = members) by congruence. now subst.
    - rewrite func_calls_guarded_call. split; [|reflexivity].
      intros _. now exists h, token, members. }
  split; [exact Hiff|].
  intros ->.
  destruct (Nat.eq_dec (Auth.func_calls (fst (require_access [] args kw))) 1)
    as [H1|H1].
  - apply Hiff in H1.
    destruct H1 as [h [token [members [_ [_ [_ [_ [role [_ [_ Hin]]]]]]]]]].
    contradiction.
  - destruct (require_access_paths urlsafe_b64decode json_loads func [] args kw)
      as [[_ H]|[[h [token [e [_ [_ [_ [_ H]]]]]]]
          |[[h [token [payload [_ [_ [_ [_ [_ H]]]]]]]]
           |[[h [token [members [_ [_ [_ [_ [_ H]]]]]]]]
            |[h [token [members [_ [_ [_ [_ [_ H]]]]]]]]]]]];
      rewrite H in *; try reflexivity.
    rewrite func_calls_guarded_call in H1. congruence.
Qed.

Lemma in_guarded_call_log (args a : list Arg) (kw k : kwargs Arg) :
  In (Auth.Called_func a k) (fst (Auth.guarded_call func args kw)) ->
  a = args /\ k = kw.
Proof.
  destruct (guarded_call_cases func args kw) as [[e [_ ->]]|[_ ->]]; simpl;
    intros [H|H]; try (inversion H; now subst); try contradiction.
Qed.

(** X15.  Whenever one of the two decorators invokes the handler, it
    passes the positional arguments on as they came, binds the decoded
    payload to [user_payload], replacing whatever the caller had put
    under that name, and passes every other keyword argument on
    unchanged. *)
Theorem handler_receives_payload_and_arguments
  (roles : list string) (args a : list Arg) (kw k : kwargs Arg) :
  In (Auth.Called_func a k) (fst (require_token args kw)) \/
  In (Auth.Called_func a k) (fst (require_access roles args kw)) ->
  a = args /\
  exists h token payload,
    get_auth_header args kw = Some h /\
    nth_error (split " " h) 1 = Some token /\
    simple_decode token = Ok payload /\
    Dict.get String.eqb k "user_payload" = Some (Payload payload) /\
    forall name, name <> "user_payload" ->
                 Dict.get String.eqb k name = Dict.get String.eqb kw name.
Proof.
  assert (Hkw : forall payload,
             Dict.get String.eqb (Auth.with_user_payload kw payload) "user_payload"
             = Some (Payload payload) /\
             forall name, name <> "user_payload" ->
                          Dict.get String.eqb (Auth.with_user_payload kw payload) name
                          = Dict.get String.eqb kw name).
  { intros payload. split.
    - apply kwargs_get_same.
    - intros name Hne. now apply kwargs_get_other. }
  intros [Hin|Hin].
  - destruct (require_token_paths urlsafe_b64decode json_loads func args kw)
      as [[_ H]|[[h [token [e [_ [_ [_ [_ H]]]]]]]
                |[h [token [payload [Hh [_ [Htok [Hdec H]]]]]]]]];
      rewrite H in Hin.
    + destruct Hin as [Hin|[]]; discriminate.
    + destruct Hin as [Hin|[]]; discriminate.
    + apply in_guarded_call_log in Hin. destruct Hin as [-> ->].
      split; [reflexivity|]. exists h, token, payload.
      repeat split; try assumption; apply Hkw.
  - destruct (require_access_paths urlsafe_b64decode json_loads func roles args kw)
      as [[_ H]|[[h [token [e [_ [_ [_ [_ H]]]]]]]
          |[[h [token [payload [_ [_ [_ [_ [_ H]]]]]]]]
           |[[h [token [members [_ [_ [_ [_ [_ H]]]]]]]]
            |[h [token [members [Hh [_ [Htok [Hdec [_ H]]]]]]]]]]]];
      rewrite H in Hin.
    + destruct Hin as [Hin|[]]; discriminate.
    + destruct Hin as [Hin|[]]; discriminate.
    + destruct Hin.
    + destruct Hin as [Hin|[]]; discriminate.
    + apply in_guarded_call_log in Hin. destruct Hin as [-> ->].
      split; [reflexivity|]. exists h, token, (JObj members).
      repeat split; try assumption; apply Hkw.
Qed.

(** X16.  What the handler returns, and every exception it raises other
    than [AuthError], comes out of the decorators unchanged, and
    [handle_auth_error] is not invoked. *)
Theorem handler_result_passes_through
  (roles : list string) (args : list Arg) (kw : kwargs Arg)
  (h token : string) (payload : json) (out : result Resp) :
  get_auth_header args kw = Some h ->
  startswith h "Bearer " = true ->
  nth_error (split " " h) 1 = Some token ->
  simple_decode token = Ok payload ->
  func args (Auth.with_user_payload kw payload) = out ->
  (forall e, out <> Raise (ExAuth e)) ->
  require_token args kw =
    ([Auth.Called_func args (Auth.with_user_payload kw payload)], out)
  /\ (forall members,
         payload = JObj members ->
         Auth.role_permitted members roles ->
         require_access roles args kw =
         ([Auth.Called_func args (Auth.with_user_payload kw payload)], out)).
Proof.
  intros Hh Hpre Htok Hdec Hout Hno.
  pose proof (bearer_not_missing h Hpre) as Hmi.
  assert (Hg : Auth.guarded_call func args (Auth.with_user_payload kw payload)
               = ([Auth.Called_func args (Auth.with_user_payload kw payload)], out)).
  { destruct (guarded_call_cases func args (Auth.with_user_payload kw payload))
      as [[e [He _]]|[_ H]].
    - rewrite Hout in He. now elim (Hno e).
    - now rewrite H, Hout. }
  split.
  - now rewrite (require_token_decoded _ _ _ _ _ Hh Hmi Htok Hdec).
  - intros members -> Hp.
    rewrite (require_access_decoded _ _ func roles _ _ Hh Hmi Htok Hdec).
    apply role_permitted_iff in Hp. now rewrite Hp.
Qed.

(** X17.  The errors the decorators hand to [handle_auth_error]: on its
    own account [require_token] produces only the two 401 errors
    (missing or invalid header, invalid token format) and
    [require_access] these and the 403 error; any other error was raised
    by the handler itself. *)
Theorem decorator_auth_errors
  (roles : list string) (args : list Arg) (kw : kwargs Arg) (e : AuthError) :
  (In (Auth.Called_handle_auth_error e) (fst (require_token args kw)) ->
   e = mkAuthError "Authorization header is missing or invalid" 401 \/
   e = mkAuthError "Invalid token format" 401 \/
   exists k, func args k = Raise (ExAuth e))
  /\ (In (Auth.Called_handle_auth_error e) (fst (require_access roles args kw)) ->
      e = mkAuthError "Authorization header is missing or invalid" 401 \/
      e = mkAuthError "Invalid token format" 401 \/
      e = mkAuthError "You do not have permission to access this resource" 403 \/
      exists k, func args k = Raise (ExAuth e)).
Proof.
  assert (Hg : forall k,
             In (Auth.Called_handle_auth_error e)
                (fst (Auth.guarded_call func args k)) ->
             func args k = Raise (ExAuth e)).
  { intros k. destruct (guarded_call_cases func args k) as [[e' [He ->]]|[_ ->]];
      simpl.
    - intros [H|[H|[]]]; [discriminate|]. inversion H. now subst.
    - intros [H|[]]. discriminate. }
  split; intros Hin.
  - destruct (require_token_paths urlsafe_b64decode json_loads func args kw)
      as [[_ H]|[[h [token [e' [_ [_ [_ [_ H]]]]]]]
                |[h [token [payload [_ [_ [_ [_ H]]]]]]]]];
      rewrite H in Hin.
    + destruct Hin as [Hin|[]]. inversion Hin. left. reflexivity.
    + destruct Hin as [Hin|[]]. inversion Hin. right. left. reflexivity.
    + right. right. exists (Auth.with_user_payload kw payload). apply Hg. exact Hin.
  - destruct (require_access_paths urlsafe_b64decode json_loads func roles args kw)
      as [[_ H]|[[h [token [e' [_ [_ [_ [_ H]]]]]]]
          |[[h [token [payload [_ [_ [_ [_ [_ H]]]]]]]]
           |[[h [token [members [_ [_ [_ [_ [_ H]]]]]]]]
            |[h [token [members [_ [_ [_ [_ [_ H]]]]]]]]]]]];
      rewrite H in Hin.
    + destruct Hin as [Hin|[]]. inversion Hin. left. reflexivity.
    + destruct Hin as [Hin|[]]. inversion Hin. right. left. reflexivity.
    + destruct Hin.
    + destruct Hin as [Hin|[]]. inversion Hin. right. right. left. reflexivity.
    + right. right. right. exists (Auth.with_user_payload kw (JObj members)).
      apply Hg. exact Hin.
Qed.

(** X18.  A header whose token holds no dot (an opaque key, or nothing
    at all after [Bearer ]) is answered by both decorators with the
    conversion of the 401 error [Invalid token format], whatever the
    decoders accept, and the handler is not invoked. *)
Theorem token_without_dot_is_401
  (roles : list string) (args : list Arg) (kw : kwargs Arg) (h token : string) :
  get_auth_header args kw = Some h ->
  startswith h "Bearer " = true ->
  nth_error (split " " h) 1 = Some token ->
  has_char "." token = false ->
  require_token args kw =
    ([Auth.Called_handle_auth_error (mkAuthError "Invalid token format" 401)],
     Ok (handle_auth_error (mkAuthError "Invalid token format" 401)))
  /\ require_access roles args kw =
       ([Auth.Called_handle_auth_error (mkAuthError "Invalid token format" 401)],
        Ok (handle_auth_error (mkAuthError "Invalid token format" 401))).
Proof.
  intros Hh Hpre Htok Hdot.
  pose proof (bearer_not_missing h Hpre) as Hmi.
  pose proof (simple_decode_no_dot urlsafe_b64decode json_loads token Hdot) as Hdec.
  split.
  - now rewrite (require_token_bad_token _ _ _ _ _ Hh Hmi Htok Hdec).
  - now rewrite (require_access_bad_token _ _ _ roles _ _ Hh Hmi Htok Hdec).
Qed.

(** X19.  When the token decodes to a JSON value that is no object (an
    array, a string, a number), [require_access] raises
    [AttributeError]: the handler is not invoked, [handle_auth_error] is
    not invoked and no response is returned, while [require_token]
    invokes the handler with that value as [user_payload]. *)
Theorem non_object_payload_escapes_require_access
  (roles : list string) (args : list Arg) (kw : kwargs Arg)
  (h token : string) (payload : json) :
  get_auth_header args kw = Some h ->
  startswith h "Bearer " = true ->
  nth_error (split " " h) 1 = Some token ->
  simple_decode token = Ok payload ->
  (forall members, payload <> JObj members) ->
  require_access roles args kw = ([], Raise (ExPy "AttributeError"))
  /\ Auth.func_calls (fst (require_token args kw)) = 1.
Proof.
  intros Hh Hpre Htok Hdec Hno.
  pose proof (bearer_not_missing h Hpre) as Hmi.
  split.
  - now apply (require_access_payload_not_object _ _ _ roles _ _ Hh Hmi Htok Hdec).
  - rewrite (require_token_decoded _ _ _ _ _ Hh Hmi Htok Hdec).
    apply func_calls_guarded_call.
Qed.

End DecoratorProperties.

(** X20.  The Flask decorators do not look at the signature of a token:
    two requests whose tokens have the same second segment between dots
    get the same result from [require_flask_token()] and from
    [require_flask_access(allowed_roles)], whatever their first and
    third segments are. *)
Theorem flask_decorators_ignore_signature
  (urlsafe_b64decode : string -> option bytes) (json_loads : bytes -> option json)
  (Arg : Type) (func : list Arg -> kwargs Arg -> result Response)
  (roles : list string) (args : list Arg) (kw : kwargs Arg)
  (r1 r2 : FlaskAdapter.request) (h1 h2 t1 t2 : string) :
  FlaskAdapter.get_auth_header r1 = Some h1 ->
  FlaskAdapter.get_auth_header r2 = Some h2 ->
  startswith h1 "Bearer " = true ->
  startswith h2 "Bearer " = true ->
  nth_error (split " " h1) 1 = Some t1 ->
  nth_error (split " " h2) 1 = Some t2 ->
  nth_error (split "." t1) 1 = nth_error (split "." t2) 1 ->
  Auth.require_token urlsafe_b64decode json_loads
    (adapter := Auth.flask_adapter Arg r1) func args kw
  = Auth.require_token urlsafe_b64decode json_loads
      (adapter := Auth.flask_adapter Arg r2) func args kw
  /\ Auth.require_access urlsafe_b64decode json_loads
       (adapter := Auth.flask_adapter Arg r1) func roles args kw
     = Auth.require_access urlsafe_b64decode json_loads
         (adapter := Auth.flask_adapter Arg r2) func roles args kw.
Proof.
  intros Hh1 Hh2 Hp1 Hp2 Ht1 Ht2 Hseg.
  pose proof (simple_decode_second_segment urlsafe_b64decode json_loads _ _ Hseg)
    as Hdec.
  pose proof (bearer_not_missing h1 Hp1) as Hm1.
  pose proof (bearer_not_missing h2 Hp2) as Hm2.
  unfold Auth.require_token, Auth.require_access, index_list.
  cbn [get_auth_header Auth.flask_adapter].
  rewrite Hh1, Hh2, Hm1, Hm2, Ht1, Ht2. cbn [or_raise Auth.lift Auth.tbind].
  rewrite Hdec. split; reflexivity.
Qed.

(* --------------------------------------------------------------------- *)
(** ** The token service *)
(* --------------------------------------------------------------------- *)

(** X22.  When the clock does not run backwards and less than a second
    passes between the two reads that [create_access_token] makes, the
    distance of [exp] from [iat] is the window in seconds or one second
    less, and it is the full window exactly when both reads fall in the
    same second. *)
Theorem access_token_window_bounds
  (env_minutes : option Z) (readings : AuthUtils.clock) (reads : nat) :
  (0 <= readings reads)%Z ->
  (readings reads <= readings (S reads) < readings reads + 1000000)%Z ->
  (0 <= AuthUtils.ACCESS_TOKEN_EXPIRE_MINUTES env_minutes)%Z ->
  (AuthUtils.ACCESS_TOKEN_EXPIRE_MINUTES env_minutes * 60 - 1
   <= AuthUtils.int_timestamp
        (AuthUtils.plus_minutes (readings reads)
           (AuthUtils.ACCESS_TOKEN_EXPIRE_MINUTES env_minutes))
      - AuthUtils.int_timestamp (readings (S reads))
   <= AuthUtils.ACCESS_TOKEN_EXPIRE_MINUTES env_minutes * 60)%Z
  /\ ((AuthUtils.int_timestamp
         (AuthUtils.plus_minutes (readings reads)
            (AuthUtils.ACCESS_TOKEN_EXPIRE_MINUTES env_minutes))
       - AuthUtils.int_timestamp (readings (S reads))
       = AuthUtils.ACCESS_TOKEN_EXPIRE_MINUTES env_minutes * 60)%Z
      <-> AuthUtils.int_timestamp (readings (S reads))
          = AuthUtils.int_timestamp (readings reads)).
Proof.
  intros Ht Hnext Hm.
  unfold AuthUtils.int_timestamp, AuthUtils.plus_minutes.
  set (t1 := readings reads) in *.
  set (t2 := readings (S reads)) in *.
  set (m := AuthUtils.ACCESS_TOKEN_EXPIRE_MINUTES env_minutes) in *.
  rewrite !Z.quot_div_nonneg by nia.
  replace (t1 + m * 60 * 1000000)%Z with (t1 + (m * 60) * 1000000)%Z by ring.
  rewrite Z.div_add by lia.
  pose proof (Z.div_mod t1 1000000 ltac:(lia)) as H1.
  pose proof (Z.mod_pos_bound t1 1000000 ltac:(lia)) as B1.
  pose proof (Z.div_mod t2 1000000 ltac:(lia)) as H2.
  pose proof (Z.mod_pos_bound t2 1000000 ltac:(lia)) as B2.
  lia.
Qed.

Section DecodeAccessToken.

Variable jwt_verify : string -> result string.
Variable is_JWException : exn -> bool.
Variable json_loads : string -> option json.

Local Abbreviation decode_access_token :=
  (AuthUtils.decode_access_token jwt_verify is_JWException json_loads).

(** X23.  [decode_access_token] returns claims only for a token that the
    library verified and whose claims parse, and then exactly the parsed
    claims; every failure, of whatever kind, comes out as an [AuthError]
    with status 401 and one of the two messages [Invalid token] and
    [Could not validate credentials]. *)
Theorem decode_access_token_outcomes (token : string) :
  (forall payload,
      decode_access_token token = Ok payload <->
      exists claims, jwt_verify token = Ok claims /\ json_loads claims = Some payload)
  /\ (forall e,
         decode_access_token token = Raise e ->
         e = ExAuth (mkAuthError "Invalid token" 401) \/
         e = ExAuth (mkAuthError "Could not validate credentials" 401)).
Proof.
  unfold AuthUtils.decode_access_token. split.
  - intros payload.
    destruct (jwt_verify token) as [claims|e]; cbn.
    + destruct (json_loads claims) as [j|] eqn:Hj; cbn.
      * split.
        -- intros H. inversion H. subst. now exists claims.
        -- intros [c [Hc Hp]]. inversion Hc. subst. congruence.
      * split.
        -- destruct (is_JWException _); discriminate.
        -- intros [c [Hc Hp]]. inversion Hc. subst. congruence.
    + split.
      * destruct (is_JWException e); discriminate.
      * intros [c [Hc _]]. discriminate.
  - intros e.
    destruct (claims <- jwt_verify token ;; or_raise "JSONDecodeError" (json_loads claims))
      as [j|e']; [discriminate|].
    destruct (is_JWException e'); intros H; inversion H; auto.
Qed.

End DecodeAccessToken.

Lemma hex_digit_is_no_space (c : ascii) (v : nat) :
  AuthUtils.hexval c = Some v -> AuthUtils.is_space c = false.
Proof.
  destruct c as [[] [] [] [] [] [] [] []]; vm_compute; congruence.
Qed.

Lemma fromhex_characters (n : nat) :
  forall (s : string) (raw : bytes),
    String.length s <= n ->
    AuthUtils.fromhex s = Some raw ->
    forall c, In c (list_ascii_of_string s) ->
              AuthUtils.is_space c = true \/ AuthUtils.hexval c <> None.
Proof.
  induction n as [|n IH]; intros s raw Hlen Hs c Hin.
  - destruct s; [contradiction|simpl in Hlen; lia].
  - destruct s as [|c0 s]; [contradiction|].
    simpl in Hlen, Hs, Hin.
    destruct (AuthUtils.is_space c0) eqn:Hsp.
    + destruct Hin as [->|Hin]; [now left|].
      apply (IH s raw); [lia|assumption|assumption].
    + destruct (AuthUtils.hexval c0) as [top|] eqn:Htop; [|discriminate].
      destruct s as [|c1 s]; [discriminate|].
      destruct (AuthUtils.hexval c1) as [bot|] eqn:Hbot; [|discriminate].
      destruct (AuthUtils.fromhex s) as [tail|] eqn:Htail; [|discriminate].
      simpl in Hlen, Hin.
      destruct Hin as [->|[->|Hin]].
      * right. congruence.
      * right. congruence.
      * apply (IH s tail); [lia|assumption|assumption].
Qed.

(** X24.  When [SECRET_KEY] holds a character that is neither a
    hexadecimal digit nor ASCII whitespace, the key setup that runs when
    [auth_utils] is imported raises [ValueError]; the default key used
    when the environment sets none is such a key. *)
Theorem raw_key_needs_hex (env : option string) (c : ascii) :
  In c (list_ascii_of_string (AuthUtils.SECRET_KEY env)) ->
  AuthUtils.hexval c = None ->
  AuthUtils.is_space c = false ->
  AuthUtils.raw_key env = Raise (ExPy "ValueError").
Proof.
  intros Hin Hhex Hsp. unfold AuthUtils.raw_key.
  destruct (AuthUtils.fromhex (AuthUtils.SECRET_KEY env)) as [raw|] eqn:Hraw;
    [|reflexivity].
  destruct (@fromhex_characters _ _ _ (le_n _) Hraw c Hin) as [H|H]; congruence.
Qed.

Lemma fromhex_hex_digits (n : nat) :
  forall s : string,
    String.length s <= n ->
    forallb (fun c => match AuthUtils.hexval c with Some _ => true | None => false end)
            (list_ascii_of_string s) = true ->
    (Nat.even (String.length s) = true ->
     exists raw, AuthUtils.fromhex s = Some raw /\
                 2 * String.length raw = String.length s)
    /\ (Nat.even (String.length s) = false -> AuthUtils.fromhex s = None).
Proof.
  induction n as [|n IH]; intros s Hlen Hall.
  - destruct s; [|simpl in Hlen; lia].
    split; [|discriminate]. intros _. now exists EmptyString.
  - destruct s as [|c0 s].
    + split; [|discriminate]. intros _. now exists EmptyString.
    + simpl in Hlen, Hall. apply andb_true_iff in Hall. destruct Hall as [H0 Hall].
      destruct (AuthUtils.hexval c0) as [top|] eqn:Htop; [|discriminate].
      cbn [AuthUtils.fromhex].
      rewrite (hex_digit_is_no_space _ Htop), Htop.
      destruct s as [|c1 s].
      * split; [discriminate|reflexivity].
      * simpl in Hlen, Hall. apply andb_true_iff in Hall. destruct Hall as [H1 Hall].
        destruct (AuthUtils.hexval c1) as [bot|] eqn:Hbot; [|discriminate].
        destruct (IH s ltac:(lia) Hall) as [Heven Hodd].
        change (Nat.even (String.length (String c0 (String c1 s))))
          with (Nat.even (String.length s)).
        split.
        -- intros He. destruct (Heven He) as [raw [-> Hraw]].
           eexists. split; [reflexivity|]. simpl. lia.
        -- intros Ho. now rewrite (Hodd Ho).
Qed.

(** X25.  A [SECRET_KEY] made of hexadecimal digits only gives a raw key
    of half as many bytes when its length is even, and makes the key
    setup raise [ValueError] when its length is odd. *)
Theorem raw_key_of_hex_digits (key : string) :
  forallb (fun c => match AuthUtils.hexval c with Some _ => true | None => false end)
          (list_ascii_of_string key) = true ->
  (Nat.even (String.length key) = true ->
   exists raw, AuthUtils.raw_key (Some key) = Ok raw /\
               2 * String.length raw = String.length key)
  /\ (Nat.even (String.length key) = false ->
      AuthUtils.raw_key (Some key) = Raise (ExPy "ValueError")).
Proof.
  intros Hall. unfold AuthUtils.raw_key. cbn [AuthUtils.SECRET_KEY].
  destruct (@fromhex_hex_digits _ _ (le_n _) Hall) as [Heven Hodd].
  split.
  - intros He. destruct (Heven He) as [raw [-> Hraw]]. now exists raw.
  - intros Ho. now rewrite (Hodd Ho).
Qed.

(* --------------------------------------------------------------------- *)
(** ** The endpoints of [server.py] *)
(* --------------------------------------------------------------------- *)

Section LoginFacts.

Variable users_db : Dict.t string Server.user.
Variable env_minutes : option Z.
Variable serialize_signed : dict -> string.
Variable readings : AuthUtils.clock.

Local Abbreviation login :=
  (Server.login users_db env_minutes serialize_signed readings).

(** X26.  [login] answers 401 with the body
    [{detail: Invalid username or password}] whenever the table holds no
    user of that name with that password, the same answer for an unknown
    name and for a wrong password, and it issues no token: the clock is
    not read. *)
Theorem login_refuses_without_matching_user
  (validated : Server.LoginSchema) (reads : nat) :
  (forall u, Dict.get String.eqb users_db (Server.username validated) = Some u ->
             Server.password u <> Server.login_password validated) ->
  login validated reads =
  ({| response_json := JObj [("detail", JStr "Invalid username or password")];
      response_status := 401 |}, reads).
Proof.
  intros Hno. unfold Server.login.
  destruct (Dict.get String.eqb users_db (Server.username validated)) as [u|];
    [|reflexivity].
  specialize (Hno u eq_refl). apply String.eqb_neq in Hno.
  now rewrite Hno.
Qed.

(** X27.  When the table holds the user with that password, [login]
    answers 200 with [token_type] [bearer] and an [access_token] that is
    the signed serialization of exactly four claims: [sub], the user's
    id, [role], the user's role, and the [exp] and [iat] of
    [create_access_token], which reads the clock twice. *)
Theorem login_issues_token_for_matching_user
  (validated : Server.LoginSchema) (reads : nat) (u : Server.user) :
  Dict.get String.eqb users_db (Server.username validated) = Some u ->
  Server.password u = Server.login_password validated ->
  login validated reads =
  ({| response_json :=
        JObj [("access_token",
               JStr (serialize_signed
                       [(JStr "sub", JInt (Server.user_id u));
                        (JStr "role", JStr (Server.role u));
                        (JStr "exp",
                         JInt (AuthUtils.int_timestamp
                                 (AuthUtils.plus_minutes (readings reads)
                                    (AuthUtils.ACCESS_TOKEN_EXPIRE_MINUTES env_minutes))));
                        (JStr "iat",
                         JInt (AuthUtils.int_timestamp (readings (S reads))))]));
              ("token_type", JStr "bearer")];
      response_status := 200 |}, S (S reads)).
Proof.
  intros Hu Hpw. unfold Server.login.
  rewrite Hu, Hpw, String.eqb_refl. reflexivity.
Qed.

End LoginFacts.

Section ProfileFacts.

Variable urlsafe_b64decode : string -> option bytes.
Variable json_loads : bytes -> option json.

Local Abbreviation profile_view :=
  (Server.profile_view urlsafe_b64decode json_loads).

(** X28.  [GET /profile] never fails with an exception and never answers
    403: it answers 200 with the decoded payload of the token under
    [your_user_data] exactly when the [Authorization] header starts with
    [Bearer ] and the token decodes, and 401 with a [detail] otherwise. *)
Theorem profile_view_answers (request : FlaskAdapter.request) :
  exists response,
    snd (profile_view request) = Ok response /\
    ((response_status response = 200%Z /\
      exists h token payload,
        FlaskAdapter.headers_get request "Authorization" = Some h /\
        startswith h "Bearer " = true /\
        nth_error (split " " h) 1 = Some token /\
        Auth.simple_decode urlsafe_b64decode json_loads token = Ok payload /\
        response_json response =
        JObj [("message", JStr "You can see this because you are logged in.");
              ("your_user_data", payload)])
     \/ (response_status response = 401%Z /\
         (FlaskAdapter.headers_get request "Authorization" = None \/
          (exists h, FlaskAdapter.headers_get request "Authorization" = Some h /\
                     startswith h "Bearer " = false) \/
          (exists h token,
              FlaskAdapter.headers_get request "Authorization" = Some h /\
              nth_error (split " " h) 1 = Some token /\
              Auth.simple_decode urlsafe_b64decode json_loads token
              = Raise (ExAuth (mkAuthError "Invalid token format" 401)))) /\
         exists detail, response_json response = JObj [("detail", JStr detail)])).
Proof.
  unfold Server.profile_view.
  destruct (require_token_paths urlsafe_b64decode json_loads
              (adapter := Auth.flask_adapter json request)
              Server.get_profile [] [])
    as [[Hmi ->]|[[h [token [e [Hh [Hpre [Htok [Hdec ->]]]]]]]
                 |[h [token [payload [Hh [Hpre [Htok [Hdec ->]]]]]]]]].
  - eexists. split; [reflexivity|]. right.
    split; [reflexivity|]. split; [|eexists; reflexivity].
    cbn in Hmi. unfold FlaskAdapter.get_auth_header in Hmi.
    destruct (FlaskAdapter.headers_get request "Authorization") as [h|];
      [|now left].
    right. left. exists h. split; [reflexivity|].
    unfold Auth.missing_or_invalid in Hmi.
    destruct (startswith h "Bearer ") eqn:Hp; [|reflexivity].
    destruct h; [discriminate Hp|discriminate Hmi].
  - eexists. split; [reflexivity|]. right.
    split; [reflexivity|]. split; [|eexists; reflexivity].
    right. right. exists h, token. repeat split; try assumption.
    rewrite Hdec. f_equal. now apply (simple_decode_raises _ _ _ Hdec).
  - eexists. split; [reflexivity|]. left.
    split; [reflexivity|]. exists h, token, payload.
    repeat split; assumption.
Qed.

End ProfileFacts.

(* --------------------------------------------------------------------- *)
(** ** The further properties on sample calls *)
(* --------------------------------------------------------------------- *)

(** X1 on a form post with a query string. *)
Lemma flask_lookup_without_json_body_witness :
  FlaskAdapter.is_json Sample.flask_form_and_query = false
  /\ exists data,
       FlaskAdapter.extract_request_data Sample.flask_form_and_query = Ok data /\
       getitem data (JStr "q") = Some (JStr "y") /\
       getitem data (JStr "tag") = Some (JArr [JStr "a"; JStr "b"]) /\
       getitem data (JStr "page") = None.
Proof.
  split; [reflexivity|].
  destruct (flask_lookup_without_json_body Sample.flask_form_and_query
              (or_introl eq_refl)) as [data [Hdata Hk]].
  exists data. split; [exact Hdata|].
  split; [exact (Hk "q")|]. split; [exact (Hk "tag")|exact (Hk "page")].
Defined.

(** X2 on the same request with a JSON body. *)
Lemma flask_lookup_with_json_object_witness :
  FlaskAdapter.is_json Sample.flask_json_object = true
  /\ FlaskAdapter.get_json Sample.flask_json_object = Ok (JObj [("k", JStr "c")])
  /\ exists data,
       FlaskAdapter.extract_request_data Sample.flask_json_object = Ok data /\
       getitem data (JStr "k") = Some (JStr "c") /\
       getitem data (JStr "q") = Some (JStr "y").
Proof.
  split; [reflexivity|]. split; [reflexivity|].
  destruct (flask_lookup_with_json_object Sample.flask_json_object
              (members := [("k", JStr "c")]) eq_refl eq_refl) as [data [Hdata Hk]].
  exists data. split; [exact Hdata|].
  split; [exact (Hk "k")|exact (Hk "q")].
Defined.

(** X3 on a request whose body does not parse. *)
Lemma flask_extract_raises_only_validation_error_witness :
  FlaskAdapter.extract_request_data Sample.flask_json_unparsable
  = Raise (ExValidation
             (mkGatewayValidationError "Invalid JSON format in request body" []))
  /\ FlaskAdapter.is_json Sample.flask_json_unparsable = true.
Proof.
  split; [reflexivity|].
  exact (proj1 (flask_extract_raises_only_validation_error
                  Sample.flask_json_unparsable eq_refl)).
Defined.

(** X4 on a request whose body is the number 5. *)
Lemma flask_scalar_json_body_is_refused_witness :
  FlaskAdapter.is_json Sample.flask_json_number = true
  /\ FlaskAdapter.get_json Sample.flask_json_number = Ok (JInt 5)
  /\ FlaskAdapter.extract_request_data Sample.flask_json_number
     = Raise (ExValidation
                (mkGatewayValidationError "Invalid JSON format in request body" [])).
Proof.
  split; [reflexivity|]. split; [reflexivity|].
  apply (flask_scalar_json_body_is_refused Sample.flask_json_number
           (j := JInt 5) eq_refl eq_refl).
  left. exists 5%Z. split; [reflexivity|discriminate].
Defined.

(** X5 on the request of three sources. *)
Lemma django_lookup_with_json_object_witness :
  contains "application/json" "application/json" = true
  /\ NoDup (map fst [("k", ["a"])])
  /\ exists data,
       DjangoAdapter.extract_request_data ascii_decode_utf8 Sample.json_loads
         Sample.django_three_sources = Ok data /\
       getitem data (JStr "k") = Some (JStr "a").
Proof.
  assert (Hnd : forall (k : string) (vs : list string) (md : MultiDict),
             Some [(k, vs)] = Some md -> NoDup (map fst md)).
  { intros k vs md H. inversion H. repeat constructor. intros []. }
  split; [reflexivity|]. split; [repeat constructor; intros []|].
  destruct (django_lookup_with_json_object ascii_decode_utf8 Sample.json_loads
              Sample.django_three_sources
              (ct := "application/json") (text := Sample.body_k_c)
              (members := [("k", JStr "c")])
              eq_refl eq_refl eq_refl eq_refl
              (Hnd "k" ["a"]) (Hnd "k" ["b"])) as [data [Hdata Hk]].
  exists data. split; [exact Hdata|exact (Hk "k")].
Defined.

(** X6 on a form post with a query string. *)
Lemma django_lookup_without_json_witness :
  contains "application/json" "application/x-www-form-urlencoded" = false
  /\ exists data,
       DjangoAdapter.extract_request_data ascii_decode_utf8 Sample.json_loads
         Sample.django_form_and_query = Ok data /\
       getitem data (JStr "q") = Some (JStr "x") /\
       getitem data (JStr "page") = None.
Proof.
  assert (Hnd : forall (k : string) (vs : list string) (md : MultiDict),
             Some [(k, vs)] = Some md -> NoDup (map fst md)).
  { intros k vs md H. inversion H. repeat constructor. intros []. }
  split; [reflexivity|].
  destruct (django_lookup_without_json ascii_decode_utf8 Sample.json_loads
              Sample.django_form_and_query
              (or_intror (ex_intro _ "application/x-www-form-urlencoded"
                            (conj eq_refl eq_refl)))
              (Hnd "q" ["x"]) (Hnd "q" ["y"])) as [data [Hdata Hk]].
  exists data. split; [exact Hdata|].
  split; [exact (Hk "q")|exact (Hk "page")].
Defined.

(** X7 and X8 on a request whose body is the number 5. *)
Lemma django_extract_raises_witness :
  DjangoAdapter.extract_request_data ascii_decode_utf8 Sample.json_loads_five
    Sample.django_json_number = Raise (ExPy "TypeError")
  /\ exists ct,
       DjangoAdapter.content_type Sample.django_json_number = Some ct /\
       contains "application/json" ct = true.
Proof.
  split; [reflexivity|].
  exact (proj1 (django_extract_raises ascii_decode_utf8 Sample.json_loads_five
                  Sample.django_json_number eq_refl)).
Defined.

Lemma django_scalar_json_body_escapes_witness :
  Sample.json_loads_five "5" = Some (JInt 5)
  /\ DjangoAdapter.extract_request_data ascii_decode_utf8 Sample.json_loads_five
       Sample.django_json_number = Raise (ExPy "TypeError").
Proof.
  split; [reflexivity|].
  apply (proj1 (django_scalar_json_body_escapes ascii_decode_utf8
                  Sample.json_loads_five Sample.django_json_number
                  (ct := "application/json") (text := "5") (j := JInt 5)
                  eq_refl eq_refl eq_refl eq_refl)).
  left. exists 5%Z. split; [reflexivity|discriminate].
Defined.

(** X12 on a token of three segments. *)
Lemma simple_decode_three_segments_witness :
  has_char "." "h" = false
  /\ has_char "." "e30" = false
  /\ Auth.simple_decode Sample.urlsafe_b64decode Sample.json_loads_bytes "h.e30"
     = Auth.simple_decode Sample.urlsafe_b64decode Sample.json_loads_bytes "h.e30.s".
Proof.
  split; [reflexivity|]. split; [reflexivity|].
  exact (proj2 (simple_decode_three_segments Sample.urlsafe_b64decode
                  Sample.json_loads_bytes "h" "e30" "s" eq_refl eq_refl)).
Defined.

(** X15 and X16 on a call with the token of an empty object. *)
Lemma handler_receives_payload_and_arguments_witness :
  In (Auth.Called_func [] [("user_payload", Payload (JObj []))])
     (fst (Sample.run_token (Some "Bearer h.e30.s") Sample.handler_ok))
  /\ exists payload,
       Dict.get String.eqb [("user_payload", Payload (JObj []))] "user_payload"
       = Some (Payload (Arg := json) payload).
Proof.
  split; [now left|].
  destruct (handler_receives_payload_and_arguments
              Sample.urlsafe_b64decode Sample.json_loads_bytes
              (adapter := Sample.adapter_with_header (Some "Bearer h.e30.s"))
              Sample.handler_ok ["admin"] [] [] [] [("user_payload", Payload (JObj []))]
              (or_introl (or_introl eq_refl)))
    as [_ [h [token [payload [_ [_ [_ [Hget _]]]]]]]].
  now exists payload.
Defined.

Lemma handler_result_passes_through_witness :
  Auth.simple_decode Sample.urlsafe_b64decode Sample.json_loads_bytes "h.e30.s"
  = Ok (JObj [])
  /\ (forall e, Ok Sample.ok_response <> Raise (ExAuth e))
  /\ Sample.run_token (Some "Bearer h.e30.s") Sample.handler_ok
     = ([Auth.Called_func [] [("user_payload", Payload (JObj []))]],
        Ok Sample.ok_response).
Proof.
  split; [reflexivity|]. split; [discriminate|].
  exact (proj1 (handler_result_passes_through
                  Sample.urlsafe_b64decode Sample.json_loads_bytes
                  (adapter := Sample.adapter_with_header (Some "Bearer h.e30.s"))
                  Sample.handler_ok ["admin"] [] []
                  (h := "Bearer h.e30.s") (token := "h.e30.s") (payload := JObj [])
                  eq_refl eq_refl eq_refl eq_refl eq_refl
                  (fun e H => eq_ind (Ok Sample.ok_response)
                                (fun r => match r with Ok _ => True | Raise _ => False end)
                                I _ H))).
Defined.

(** X18 on the header [Bearer secret]. *)
Lemma token_without_dot_is_401_witness :
  has_char "." "secret" = false
  /\ Sample.run_token (Some "Bearer secret") Sample.handler_ok
     = ([Auth.Called_handle_auth_error (mkAuthError "Invalid token format" 401)],
        Ok (FlaskAdapter.handle_auth_error (mkAuthError "Invalid token format" 401))).
Proof.
  split; [reflexivity|].
  exact (proj1 (token_without_dot_is_401
                  Sample.urlsafe_b64decode Sample.json_loads_bytes
                  (adapter := Sample.adapter_with_header (Some "Bearer secret"))
                  Sample.handler_ok ["admin"] [] []
                  (h := "Bearer secret") (token := "secret")
                  eq_refl eq_refl eq_refl eq_refl)).
Defined.

(** X19 on a token whose payload is the array [[1]]. *)
Lemma non_object_payload_escapes_require_access_witness :
  Auth.simple_decode Sample.urlsafe_b64decode Sample.json_loads_bytes "h.WzFd.s"
  = Ok (JArr [JInt 1])
  /\ Sample.run_access (Some "Bearer h.WzFd.s") ["admin"] Sample.handler_ok
     = ([], Raise (ExPy "AttributeError"))
  /\ Auth.func_calls (fst (Sample.run_token (Some "Bearer h.WzFd.s") Sample.handler_ok))
     = 1.
Proof.
  split; [reflexivity|].
  exact (non_object_payload_escapes_require_access
           Sample.urlsafe_b64decode Sample.json_loads_bytes
           (adapter := Sample.adapter_with_header (Some "Bearer h.WzFd.s"))
           Sample.handler_ok ["admin"] [] []
           (h := "Bearer h.WzFd.s") (token := "h.WzFd.s") (payload := JArr [JInt 1])
           eq_refl eq_refl eq_refl eq_refl
           (fun members H =>
              eq_ind (JArr [JInt 1])
                (fun j => match j with JArr _ => True | _ => False end) I _ H)).
Defined.

(** X20 on two tokens that differ in header and signature only. *)
Lemma flask_decorators_ignore_signature_witness :
  nth_error (split "." "h.e30.s") 1 = nth_error (split "." "forged.e30.none") 1
  /\ Sample.run_token (Some "Bearer h.e30.s") Sample.handler_ok
     = Sample.run_token (Some "Bearer forged.e30.none") Sample.handler_ok.
Proof.
  split; [reflexivity|].
  exact (proj1 (flask_decorators_ignore_signature
                  Sample.urlsafe_b64decode Sample.json_loads_bytes
                  Sample.handler_ok ["admin"] [] []
                  (Sample.flask_with_header (Some "Bearer h.e30.s"))
                  (Sample.flask_with_header (Some "Bearer forged.e30.none"))
                  (h1 := "Bearer h.e30.s") (h2 := "Bearer forged.e30.none")
                  (t1 := "h.e30.s") (t2 := "forged.e30.none")
                  eq_refl eq_refl eq_refl eq_refl eq_refl eq_refl eq_refl)).
Defined.

(** X22 on the two clocks. *)
Lemma access_token_window_bounds_witness :
  (0 <= Sample.clock_across_second 0%nat)%Z
  /\ (Sample.clock_across_second 0%nat <= Sample.clock_across_second 1%nat
      < Sample.clock_across_second 0%nat + 1000000)%Z
  /\ (0 <= AuthUtils.ACCESS_TOKEN_EXPIRE_MINUTES None)%Z
  /\ (AuthUtils.ACCESS_TOKEN_EXPIRE_MINUTES None * 60 - 1
      <= AuthUtils.int_timestamp
           (AuthUtils.plus_minutes (Sample.clock_across_second 0%nat)
              (AuthUtils.ACCESS_TOKEN_EXPIRE_MINUTES None))
         - AuthUtils.int_timestamp (Sample.clock_across_second 1%nat)
      <= AuthUtils.ACCESS_TOKEN_EXPIRE_MINUTES None * 60)%Z.
Proof.
  assert (H0 : (0 <= Sample.clock_across_second 0%nat)%Z) by (cbn; lia).
  assert (H1 : (Sample.clock_across_second 0%nat <= Sample.clock_across_second 1%nat
                < Sample.clock_across_second 0%nat + 1000000)%Z) by (cbn; lia).
  assert (H2 : (0 <= AuthUtils.ACCESS_TOKEN_EXPIRE_MINUTES None)%Z) by (cbn; lia).
  split; [exact H0|]. split; [exact H1|]. split; [exact H2|].
  exact (proj1 (access_token_window_bounds None Sample.clock_across_second 0%nat H0 H1 H2)).
Defined.

(** X24 on the default key, X25 on the key [00ff]. *)
Lemma raw_key_needs_hex_witness :
  In "u"%char (list_ascii_of_string (AuthUtils.SECRET_KEY None))
  /\ AuthUtils.hexval "u" = None
  /\ AuthUtils.is_space "u" = false
  /\ AuthUtils.raw_key None = Raise (ExPy "ValueError").
Proof.
  assert (Hin : In "u"%char (list_ascii_of_string (AuthUtils.SECRET_KEY None))).
  { cbn. right. right. right. right. now left. }
  split; [exact Hin|]. split; [reflexivity|]. split; [reflexivity|].
  exact (raw_key_needs_hex None "u" Hin eq_refl eq_refl).
Defined.

Lemma raw_key_of_hex_digits_witness :
  Nat.even (String.length "00ff") = true
  /\ exists raw, AuthUtils.raw_key (Some "00ff") = Ok raw /\
                 2 * String.length raw = String.length "00ff".
Proof.
  split; [reflexivity|].
  exact (proj1 (raw_key_of_hex_digits "00ff" eq_refl) eq_refl).
Defined.

(** X26 and X27 on the user table of the module. *)
Lemma login_refuses_without_matching_user_witness :
  Dict.get String.eqb Server.initial_users_db "mallory" = None
  /\ Server.login Server.initial_users_db None Sample.serialize_opaque
       Sample.clock_within_second (Server.mkLoginSchema "mallory" "password123") 0
     = ({| response_json := JObj [("detail", JStr "Invalid username or password")];
           response_status := 401 |}, 0).
Proof.
  split; [reflexivity|].
  apply login_refuses_without_matching_user.
  intros u H. discriminate H.
Defined.

Lemma login_issues_token_for_matching_user_witness :
  Dict.get String.eqb Server.initial_users_db "testuser"
  = Some (Server.mkUser "password123" 1 "admin")
  /\ fst (Server.login Server.initial_users_db None Sample.serialize_opaque
            Sample.clock_within_second Sample.testuser_login 0)
     = {| response_json := JObj [("access_token", JStr "header.claims.signature");
                                 ("token_type", JStr "bearer")];
          response_status := 200 |}.
Proof.
  split; [reflexivity|].
  exact (f_equal fst
           (login_issues_token_for_matching_user
              Server.initial_users_db None Sample.serialize_opaque
              Sample.clock_within_second Sample.testuser_login 0
              (u := Server.mkUser "password123" 1 "admin") eq_refl eq_refl)).
Defined.
